(** * todo-ia: the task CRUD backend of [main.py]

    A shallow embedding of the FastAPI/SQLModel application: the three
    models ([TaskBase], [Task], [TaskRead]), the [task] table of the SQLite
    file opened by [create_engine("sqlite:///tasks.db")], the six request
    handlers, and the router that validates request bodies and turns
    outcomes into HTTP responses.  Every handler runs in a session of its
    own ([get_session]), so a handler is a function from the table before
    the request to an outcome and the table after it.

    Two things the libraries do are part of the behaviour and are modelled
    with the router: the body of a creation is turned into a [Task], the
    table model, without validation, while the body of an update is
    validated against [TaskBase]; and a route declared with a
    [response_model] validates what its handler returned, after the
    handler has committed. *)

From stdpp Require Import gmap strings list fin_maps pretty sorting.

Local Open Scope Z_scope.

(** ** Models *)

(** [class TaskBase(SQLModel)]: [title: constr(min_length=1, max_length=100)]
    and [done: bool = False].  An element of the [string] stands for one
    character of the title. *)
Record TaskBase := mkTaskBase { title : string; done : bool }.

(** [class Task(TaskBase, table=True)]: adds
    [id: int | None = Field(default=None, primary_key=True)]. *)
Record Task := mkTask { Task_base :> TaskBase; Task_id : option Z }.

(** [class TaskRead(TaskBase)]: adds [id: int]. *)
Record TaskRead := mkTaskRead { TaskRead_base :> TaskBase; TaskRead_id : Z }.

Global Instance TaskBase_eq_dec : EqDecision TaskBase.
Proof. solve_decision. Defined.
Global Instance Task_eq_dec : EqDecision Task.
Proof. solve_decision. Defined.
Global Instance TaskRead_eq_dec : EqDecision TaskRead.
Proof. solve_decision. Defined.

(** ** Storage: the [task] table

    One row per primary key: the table is a finite map from [id] to the two
    remaining columns.  Ids are mathematical integers, as Python's are;
    SQLite's are 64-bit ([sqlite_integer]), and an id outside that range
    is refused when it is bound to a statement. *)
Abbreviation table := (gmap Z TaskBase).

(** The rows as [(id, columns)] pairs, in the order a [select(Task)]
    without ORDER BY scans them in SQLite: by rowid. *)
Definition rowid_le (r1 r2 : Z * TaskBase) : Prop := r1.1 ≤ r2.1.

Global Instance rowid_le_dec : RelDecision rowid_le.
Proof. intros r1 r2. unfold rowid_le. apply _. Defined.

Definition rows (db : table) : list (Z * TaskBase) :=
  merge_sort rowid_le (map_to_list db).

(** [session.exec(select(Task).where(Task.title == t))]: the rows whose
    title is exactly [t]. *)
Definition select_where_title (t : string) (db : table) : list (Z * TaskBase) :=
  filter (λ r, title r.2 = t) (rows db).

(** [.first()]: the first row of a result, [None] when there is none. *)
Definition first {A} (l : list A) : option A := head l.

(** [session.get(Task, task_id)]: the row with that primary key.  (The
    driver's refusal of an id that is not a 64-bit integer is modelled with
    the router, see [get_overflows].) *)
Definition session_get (task_id : Z) (db : table) : option TaskBase := db !! task_id.

(** An integer that SQLite can hold, and so that the driver can bind. *)
Definition sqlite_integer (i : Z) : bool := bool_decide (- 2 ^ 63 ≤ i < 2 ^ 63).

(** The key SQLite gives to a row inserted without one.  The [id] column is
    declared [primary_key=True] on an integer and nothing asks for
    AUTOINCREMENT, so it is the table's rowid: one more than the largest
    key in use, and 1 in an empty table.  (When the largest key is
    2^63 - 1 SQLite tries keys at random instead; that case is left as the
    successor here.) *)
Definition max_rowid (db : table) : option Z :=
  foldr (λ i acc, Some (match acc with Some m => Z.max i m | None => i end))
        None (rows db).*1.

Definition next_rowid (db : table) : Z :=
  match max_rowid db with
  | Some m => m + 1
  | None => 1
  end.

(** The exceptions of a request: the [HTTPException] that a handler
    raises, and the two that the storage raises and nobody catches. *)
Inductive exn :=
  | HTTPException (status_code : Z) (detail : string)
  | IntegrityError
  | OverflowError.

(** [session.add(task); session.commit()] for a new object: an INSERT.  An
    object that carries an [id] is inserted under it: the driver refuses
    to bind an id that is not a 64-bit integer, and the primary key
    rejects one that is taken; an object without an id gets [next_rowid].
    The result is the key of the new row and the table holding it. *)
Definition insert_row (task : Task) (db : table) : exn + Z * table :=
  match Task_id task with
  | Some i =>
      if sqlite_integer i then
        match db !! i with
        | Some _ => inl IntegrityError
        | None => inr (i, <[i := Task_base task]> db)
        end
      else inl OverflowError
  | None =>
      let i := next_rowid db in
      inr (i, <[i := Task_base task]> db)
  end.

(** ** Outcomes of a handler *)

Inductive outcome (A : Type) :=
  | Return (a : A)
  | Raise (e : exn).
Arguments Return {A} a.
Arguments Raise {A} e.

(** ** The handlers *)

(** [@app.post("/tasks")]. *)
Definition create_task (task : Task) (db : table) : outcome TaskRead * table :=
  match first (select_where_title (title task) db) with
  | Some existing_task =>
      (Raise (HTTPException 400 "Ya existe una tarea con ese título"), db)
  | None =>
      match insert_row task db with
      | inr (i, db') => (Return (mkTaskRead (Task_base task) i), db')
      | inl e => (Raise e, db)
      end
  end.

(** [@app.get("/tasks", response_model=list[TaskRead])]. *)
Definition select_Task (db : table) : list TaskRead :=
  (λ r, mkTaskRead r.2 r.1) <$> rows db.

Definition read_tasks (db : table) : outcome (list TaskRead) * table :=
  let tasks := select_Task db in
  (Return tasks, db).

(** [@app.put("/tasks/{task_id}", response_model=TaskRead)]. *)
Definition update_task (task_id : Z) (updated_task : TaskBase) (db : table)
  : outcome TaskRead * table :=
  match session_get task_id db with
  | None => (Raise (HTTPException 404 "Tarea no encontrada"), db)
  | Some task =>
      let task := mkTaskBase (title updated_task) (done updated_task) in
      (Return (mkTaskRead task task_id), <[task_id := task]> db)
  end.

(** [@app.delete("/tasks/{task_id}")]: the returned dict has the single key
    ["mensaje"]; its value is the outcome. *)
Definition delete_task (task_id : Z) (db : table) : outcome string * table :=
  match session_get task_id db with
  | None => (Raise (HTTPException 404 "Tarea no encontrada"), db)
  | Some task =>
      (Return ("Tarea con id " +:+ pretty task_id +:+ " eliminada"),
       delete task_id db)
  end.

(** [@app.patch("/tasks/{task_id}/done", response_model=TaskRead)]. *)
Definition mark_task_done (task_id : Z) (db : table) : outcome TaskRead * table :=
  match session_get task_id db with
  | None => (Raise (HTTPException 404 "Tarea no encontrada"), db)
  | Some task =>
      let task := mkTaskBase (title task) true in
      (Return (mkTaskRead task task_id), <[task_id := task]> db)
  end.

(** [@app.patch("/tasks/{task_id}/toggle", response_model=TaskRead)]. *)
Definition toggle_task (task_id : Z) (db : table) : outcome TaskRead * table :=
  match session_get task_id db with
  | None => (Raise (HTTPException 404 "Tarea no encontrada"), db)
  | Some task =>
      let task := mkTaskBase (title task) (negb (done task)) in
      (Return (mkTaskRead task task_id), <[task_id := task]> db)
  end.

(** ** The router

    A JSON request body: the keys a handler's model reads, each present or
    absent, with values of the JSON type the field declares.  Keys that the
    model does not declare are ignored. *)
Record body := mkBody {
  body_title : option string;
  body_done : option bool;
  body_id : option Z
}.

(** Validation of a body against [TaskBase]: [title] is required and its
    length lies in [1, 100]; [done] defaults to [False]. *)
Definition validate_TaskBase (b : body) : option TaskBase :=
  match body_title b with
  | None => None
  | Some t =>
      if bool_decide (1 ≤ String.length t ≤ 100)%nat
      then Some (mkTaskBase t (default false (body_done b)))
      else None
  end.

(** The constraints that [Task] inherits from [TaskBase], on a body with
    the optional [id].  They are declared, but a [table=True] model is
    built without validation, so the creation route does not apply them
    (see [construct_Task]); a body that meets them is built into the task
    given here. *)
Definition validate_Task (b : body) : option Task :=
  base ← validate_TaskBase b; Some (mkTask base (body_id b)).

(** What the creation route makes of its body: the table model [Task] is
    built from the keys as they come, whatever the length of the title;
    [done] defaults to [False].  A body without a title gives an object
    whose title is unset, which is not a [Task] of this model: [None]. *)
Definition construct_Task (b : body) : option Task :=
  t ← body_title b; Some (mkTask (mkTaskBase t (default false (body_done b))) (body_id b)).

(** Validation of a returned record against [TaskRead], the
    [response_model] of the update, mark-done and toggle routes and of the
    elements of the listing: the title constraint of [TaskBase]. *)
Definition validate_TaskRead (r : TaskRead) : bool :=
  bool_decide (1 ≤ String.length (title r) ≤ 100)%nat.

Inductive request :=
  | POST_tasks (b : body)
  | GET_tasks
  | PUT_tasks (task_id : Z) (b : body)
  | DELETE_tasks (task_id : Z)
  | PATCH_tasks_done (task_id : Z)
  | PATCH_tasks_toggle (task_id : Z).

(** The JSON content of a response. *)
Inductive content :=
  | task_json (r : TaskRead)
  | tasks_json (l : list TaskRead)
  | mensaje_json (m : string)
  | detail_json (d : string)
  | validation_errors
  | internal_server_error.

Record response := mkResponse { status : Z; resp_content : content }.

(** What the framework sends for the outcome of a handler: 200 and the
    serialized value, the status and detail of an [HTTPException], 500 for
    an exception nobody catches. *)
Definition respond {A} (to_json : A → content) (o : outcome A) : response :=
  match o with
  | Return a => mkResponse 200 (to_json a)
  | Raise (HTTPException status_code detail) => mkResponse status_code (detail_json detail)
  | Raise IntegrityError => mkResponse 500 internal_server_error
  | Raise OverflowError => mkResponse 500 internal_server_error
  end.

Definition unprocessable : response := mkResponse 422 validation_errors.

(** The same for a route with a [response_model]: the returned value is
    validated first, and a value that fails is an exception nobody
    catches.  The handler has returned, so what it committed stays. *)
Definition respond_model {A} (valid : A → bool) (to_json : A → content)
    (o : outcome A) : response :=
  match o with
  | Return a => if valid a then respond to_json o else mkResponse 500 internal_server_error
  | Raise _ => respond to_json o
  end.

(** [session.get(Task, task_id)] binds the id to a SELECT, and the driver
    refuses an id that is not a 64-bit integer: an [OverflowError] that
    nobody catches, before anything is read or written.  No row of the
    storage has such an id; the refusal is modelled for the ids without a
    row. *)
Definition get_overflows (task_id : Z) (db : table) : bool :=
  negb (sqlite_integer task_id) && bool_decide (db !! task_id = None).

Definition overflow : response := respond task_json (Raise OverflowError).

(** One request.  The creation route builds its [Task] without validation
    and has no [response_model]; a body without a title makes the INSERT
    fail on the NOT NULL title ([IntegrityError]), with nothing written.
    The update route validates its body against [TaskBase] before the
    handler is called.  The listing, update, mark-done and toggle routes
    validate what the handler returned. *)
Definition handle (req : request) (db : table) : response * table :=
  match req with
  | POST_tasks b =>
      match construct_Task b with
      | None => (respond task_json (Raise IntegrityError), db)
      | Some task => prod_map (respond task_json) id (create_task task db)
      end
  | GET_tasks =>
      prod_map (respond_model (forallb validate_TaskRead) tasks_json) id (read_tasks db)
  | PUT_tasks task_id b =>
      match validate_TaskBase b with
      | None => (unprocessable, db)
      | Some updated_task =>
          if get_overflows task_id db then (overflow, db) else
          prod_map (respond_model validate_TaskRead task_json) id
                   (update_task task_id updated_task db)
      end
  | DELETE_tasks task_id =>
      if get_overflows task_id db then (overflow, db) else
      prod_map (respond mensaje_json) id (delete_task task_id db)
  | PATCH_tasks_done task_id =>
      if get_overflows task_id db then (overflow, db) else
      prod_map (respond_model validate_TaskRead task_json) id (mark_task_done task_id db)
  | PATCH_tasks_toggle task_id =>
      if get_overflows task_id db then (overflow, db) else
      prod_map (respond_model validate_TaskRead task_json) id (toggle_task task_id db)
  end.

(** A sequence of requests served one after the other: the responses, in
    order, and the table at the end. *)
Fixpoint run (reqs : list request) (db : table) : list response * table :=
  match reqs with
  | [] => ([], db)
  | req :: reqs =>
      let '(resp, db) := handle req db in
      let '(resps, db) := run reqs db in
      (resp :: resps, db)
  end.

(** The table is created empty at startup; a state is reachable when some
    sequence of requests leads to it. *)
Definition reachable (db : table) : Prop := ∃ reqs, (run reqs ∅).2 = db.

(** The exchanges of a run: each request with its response. *)
Definition exchanges (reqs : list request) (db : table) : list (request * response) :=
  zip reqs (run reqs db).1.

Definition json_body (t : string) : body := mkBody (Some t) None None.

(** * Histories, sample data and the statements under test *)

Definition db_a : table := {[ 1 := mkTaskBase "a" false ]}.

Definition not_found : exn := HTTPException 404 "Tarea no encontrada".

Definition shared_title_requests : list request :=
  [POST_tasks (json_body "a"); POST_tasks (json_body "b");
   PUT_tasks 2 (mkBody (Some "a") (Some true) None)].

(** Two distinct tasks of the table have the same title. *)
Definition shares_a_title (db : table) : Prop :=
  ∃ i j row_i row_j,
    i ≠ j ∧ db !! i = Some row_i ∧ db !! j = Some row_j ∧ title row_i = title row_j.

Definition is_POST (req : request) : bool :=
  match req with POST_tasks _ => true | _ => false end.

(** [sub] occurs in [s]. *)
Definition contains (sub s : string) : Prop := ∃ pre post, s = pre +:+ sub +:+ post.

(** The listing as the specification words it, read off the exchanges of a
    run in the order they happened.  An exchange succeeded when its status
    is 200. *)
Definition succeeded (x : request * response) : bool :=
  bool_decide (status x.2 = 200).

(** The record that a successful create, update, mark-done or toggle
    exchange wrote: the one its response carries. *)
Definition record_written (x : request * response) : option TaskRead :=
  match x.1, resp_content x.2 with
  | (POST_tasks _ | PUT_tasks _ _ | PATCH_tasks_done _ | PATCH_tasks_toggle _),
    task_json r => if succeeded x then Some r else None
  | _, _ => None
  end.

(** The exchange created the task with id [i]. *)
Definition creates (i : Z) (x : request * response) : bool :=
  match x.1 with
  | POST_tasks _ => bool_decide (TaskRead_id <$> record_written x = Some i)
  | _ => false
  end.

(** The exchange deleted the task with id [i]. *)
Definition deletes (i : Z) (x : request * response) : bool :=
  match x.1 with
  | DELETE_tasks j => succeeded x && bool_decide (j = i)
  | _ => false
  end.

Definition step_alive (i : Z) (a : bool) (x : request * response) : bool :=
  if creates i x then true else if deletes i x then false else a.

Definition step_values (i : Z) (v : option TaskRead) (x : request * response)
  : option TaskRead :=
  match record_written x with
  | Some r => if decide (TaskRead_id r = i) then Some r else v
  | None => v
  end.

(** Task [i] was created and not deleted since. *)
Definition alive (i : Z) (log : list (request * response)) : bool :=
  foldl (step_alive i) false log.

(** The record written by the last successful mutating exchange on [i]. *)
Definition last_values (i : Z) (log : list (request * response)) : option TaskRead :=
  foldl (step_values i) None log.

Definition spec_listed (log : list (request * response)) (r : TaskRead) : Prop :=
  alive (TaskRead_id r) log = true ∧ last_values (TaskRead_id r) log = Some r.

(** The table agrees with what the history says about every id. *)
Definition agrees (db : table) (a : Z → bool) (v : Z → option TaskRead) : Prop :=
  ∀ i, if a i
       then ∃ r, v i = Some r ∧ TaskRead_id r = i ∧ db !! i = Some (TaskRead_base r)
       else db !! i = None.

(** The ids given to tasks by the creations of a history, deleted or not. *)
Definition assigned_ids (log : list (request * response)) : list Z :=
  omap (λ x, match x.1 with
             | POST_tasks _ => TaskRead_id <$> record_written x
             | _ => None
             end) log.

Definition no_task_titled (t : string) (db : table) : Prop :=
  ∀ i row, db !! i = Some row → title row ≠ t.

(** A request whose creation body, if it has a title, has one of 1 to 100
    characters: what a client that respects [TaskBase] sends. *)
Definition valid_creation (req : request) : bool :=
  match req with
  | POST_tasks b =>
      match body_title b with
      | Some t => bool_decide (1 ≤ String.length t ≤ 100)%nat
      | None => true
      end
  | _ => true
  end.

(** C5 as it is stated, for the routes without a body: after any history,
    a delete, mark-done or toggle is answered 404, without a write, when
    no task has the id, and 200 when a task has it. *)
Definition by_id_404_or_200 : Prop :=
  ∀ (reqs : list request) (task_id : Z) (req : request),
    req = DELETE_tasks task_id ∨ req = PATCH_tasks_done task_id
    ∨ req = PATCH_tasks_toggle task_id →
    ((run reqs ∅).2 !! task_id = None →
       status (handle req (run reqs ∅).2).1 = 404
       ∧ (handle req (run reqs ∅).2).2 = (run reqs ∅).2)
    ∧ (is_Some ((run reqs ∅).2 !! task_id) →
       status (handle req (run reqs ∅).2).1 = 200).

(** C2 as it is stated: after any history, a creation with a valid title
    that no stored task has succeeds, with an id that no creation of the
    history assigned. *)
Definition create_assigns_unused_id : Prop :=
  ∀ (reqs : list request) (b : body) (t : string),
    body_title b = Some t → (1 ≤ String.length t ≤ 100)%nat →
    no_task_titled t (run reqs ∅).2 →
    ∃ r, (handle (POST_tasks b) (run reqs ∅).2).1 = mkResponse 200 (task_json r)
         ∧ TaskRead_id r ∉ assigned_ids (exchanges reqs ∅).

(** C3 as it is stated, on where ids come from: the response to a
    creation does not depend on an id put in the body. *)
Definition id_not_from_client : Prop :=
  ∀ (db : table) (b : body) (i : Z),
    (handle (POST_tasks (mkBody (body_title b) (body_done b) (Some i))) db).1
    = (handle (POST_tasks (mkBody (body_title b) (body_done b) None)) db).1.

(** C3 as it is stated, on reuse: an id returned by a creation was not
    assigned by any creation before it. *)
Definition id_never_reused : Prop :=
  ∀ (reqs : list request) (b : body) (r : TaskRead),
    (handle (POST_tasks b) (run reqs ∅).2).1 = mkResponse 200 (task_json r) →
    TaskRead_id r ∉ assigned_ids (exchanges reqs ∅).

(** ** Further vocabulary for the properties of the handlers *)


Definition is_PUT (req : request) : bool :=
  match req with PUT_tasks _ _ => true | _ => false end.

(** No two rows have the same title. *)
Definition titles_unique (db : table) : Prop :=
  ∀ i j row_i row_j,
    db !! i = Some row_i → db !! j = Some row_j → title row_i = title row_j → i = j.

(** Every stored title meets the length constraint of [TaskBase]. *)
Definition titles_valid (db : table) : Prop :=
  ∀ i row, db !! i = Some row → (1 ≤ String.length (title row) ≤ 100)%nat.

(** The ids of the tasks that the deletions of a history removed. *)
Definition deleted_ids (log : list (request * response)) : list Z :=
  omap (λ x, match x.1 with
             | DELETE_tasks j => if succeeded x then Some j else None
             | _ => None
             end) log.

(** [n] consecutive toggle requests on one id. *)
Definition toggles (task_id : Z) (n : nat) (db : table) : table :=
  Nat.iter n (λ db, (toggle_task task_id db).2) db.

(** The id in the path of a request. *)
Definition target (req : request) : option Z :=
  match req with
  | PUT_tasks task_id _ | DELETE_tasks task_id
  | PATCH_tasks_done task_id | PATCH_tasks_toggle task_id => Some task_id
  | POST_tasks _ | GET_tasks => None
  end.

(** The body of a creation carries no id. *)
Definition no_client_id (req : request) : bool :=
  match req with
  | POST_tasks b => bool_decide (body_id b = None)
  | _ => true
  end.

(** Every id of the table lies between 1 and [n]. *)
Definition ids_within (n : nat) (db : table) : Prop :=
  ∀ i row, db !! i = Some row → 1 ≤ i ≤ Z.of_nat n.

(** * Properties *)

(** ** The table and its queries *)

Lemma elem_of_rows (db : table) i row : (i, row) ∈ rows db ↔ db !! i = Some row.
Proof.
  unfold rows. rewrite merge_sort_Permutation. apply elem_of_map_to_list.
Qed.

Lemma NoDup_rows_ids (db : table) : NoDup (rows db).*1.
Proof.
  unfold rows. rewrite merge_sort_Permutation. apply NoDup_fst_map_to_list.
Qed.

Lemma elem_of_select_where_title (db : table) t i row :
  (i, row) ∈ select_where_title t db ↔ db !! i = Some row ∧ title row = t.
Proof.
  unfold select_where_title. rewrite list_elem_of_filter, elem_of_rows. simpl. tauto.
Qed.

(** The duplicate check finds a row exactly when some task has the title. *)
Lemma first_select_is_Some (db : table) t :
  is_Some (first (select_where_title t db)) ↔ ∃ i row, db !! i = Some row ∧ title row = t.
Proof.
  unfold first. split.
  - intros [[i row] Hh]. exists i, row.
    apply elem_of_select_where_title. eapply head_Some_elem_of, Hh.
  - intros (i & row & Hi & Ht).
    destruct (select_where_title t db) as [|x l] eqn:E; [|by eexists].
    assert (Hin : (i, row) ∈ select_where_title t db)
      by (by apply elem_of_select_where_title).
    rewrite E in Hin. by apply elem_of_nil in Hin.
Qed.

Lemma first_select_None (db : table) t :
  first (select_where_title t db) = None ↔ ∀ i row, db !! i = Some row → title row ≠ t.
Proof.
  rewrite eq_None_not_Some, first_select_is_Some. split.
  - intros Hno i row Hi Ht. apply Hno. eauto.
  - intros Hno (i & row & Hi & Ht). by eapply Hno.
Qed.

Lemma max_rowid_bound (db : table) i row :
  db !! i = Some row → ∃ m, max_rowid db = Some m ∧ i ≤ m.
Proof.
  intros Hi. apply elem_of_rows in Hi.
  assert (Hin : i ∈ (rows db).*1) by (apply list_elem_of_fmap; by exists (i, row)).
  unfold max_rowid. generalize dependent ((rows db).*1). clear Hi. intros l Hin.
  induction Hin as [j l|j k l Hin IH]; simpl.
  - destruct (foldr _ _ l); eexists; (split; [reflexivity|lia]).
  - destruct IH as (m & -> & Hm). eexists; split; [reflexivity|lia].
Qed.

(** The key chosen for a row inserted without one is not in use. *)
Lemma next_rowid_fresh (db : table) : db !! next_rowid db = None.
Proof.
  destruct (db !! next_rowid db) as [row|] eqn:E; [|done].
  apply max_rowid_bound in E as (m & Hm & Hle).
  unfold next_rowid in Hle. rewrite Hm in Hle. lia.
Qed.

Lemma insert_row_spec (task : Task) (db : table) i db' :
  insert_row task db = inr (i, db') →
  db !! i = None ∧ db' = <[i := Task_base task]> db.
Proof.
  unfold insert_row. destruct (Task_id task) as [j|].
  - destruct (sqlite_integer j); [|done].
    destruct (db !! j) eqn:E; [done|]. intros [= <- <-]. done.
  - intros [= <- <-]. split; [apply next_rowid_fresh|done].
Qed.

(** An insert is refused by the primary key or by the driver only. *)
Lemma insert_row_error (task : Task) (db : table) e :
  insert_row task db = inl e → e = IntegrityError ∨ e = OverflowError.
Proof.
  unfold insert_row. destruct (Task_id task) as [j|]; [|done].
  destruct (sqlite_integer j); [|intros [= <-]; by right].
  destruct (db !! j); [|done]. intros [= <-]. by left.
Qed.

(** ** The router *)

Lemma validate_TaskBase_length (b : body) (p : TaskBase) :
  validate_TaskBase b = Some p → (1 ≤ String.length (title p) ≤ 100)%nat.
Proof.
  unfold validate_TaskBase. destruct (body_title b) as [t|]; [|done].
  case_bool_decide; [|done]. by intros [= <-].
Qed.

(** A body that meets the constraints of [Task] is built into the task
    that validation would give. *)
Lemma validate_Task_construct (b : body) (task : Task) :
  validate_Task b = Some task → construct_Task b = Some task.
Proof.
  unfold validate_Task, construct_Task, validate_TaskBase.
  destruct (body_title b) as [t|]; [|done]. simpl.
  case_bool_decide; [|done]. done.
Qed.

Lemma get_overflows_row (db : table) i row :
  db !! i = Some row → get_overflows i db = false.
Proof.
  intros Hi. unfold get_overflows. rewrite bool_decide_eq_false_2 by congruence.
  apply andb_false_r.
Qed.

Lemma get_overflows_integer (db : table) i :
  sqlite_integer i = true → get_overflows i db = false.
Proof. intros Hi. unfold get_overflows. by rewrite Hi. Qed.

(** A request that overflows finds no row. *)
Lemma get_overflows_absent (db : table) i :
  get_overflows i db = true → db !! i = None.
Proof.
  unfold get_overflows. intros [_ H]%andb_prop. by apply bool_decide_eq_true_1 in H.
Qed.

(** ** Creation with a title that is taken *)

(** C1, as amended: in every state in which some task has the title of the
    submitted task, [create_task] raises the HTTP 400 exception whose
    detail is the text "Ya existe una tarea con ese título" and writes nothing: the table
    after the call is the table before it.  The router answers 400 with
    that detail to every body that validates to such a task. *)
Theorem create_task_duplicate_title (db : table) (task : Task) i row :
  db !! i = Some row → title row = title task →
  create_task task db
  = (Raise (HTTPException 400 "Ya existe una tarea con ese título"), db)
  ∧ ∀ b, validate_Task b = Some task →
      handle (POST_tasks b) db
      = (mkResponse 400 (detail_json "Ya existe una tarea con ese título"), db).
Proof.
  intros Hi Ht.
  assert (Hc : create_task task db
    = (Raise (HTTPException 400 "Ya existe una tarea con ese título"), db)).
  { unfold create_task.
    destruct (first_select_is_Some db (title task)) as [_ [x ->]]; [eauto|done]. }
  split; [done|]. intros b Hb. simpl.
  by rewrite (validate_Task_construct b task Hb), Hc.
Qed.

Lemma create_task_duplicate_title_witness :
  db_a !! 1 = Some (mkTaskBase "a" false)
  ∧ create_task (mkTask (mkTaskBase "a" true) None) db_a
    = (Raise (HTTPException 400 "Ya existe una tarea con ese título"), db_a).
Proof.
  split; [reflexivity|].
  apply (create_task_duplicate_title db_a (mkTask (mkTaskBase "a" true) None)
           1 (mkTaskBase "a" false)); reflexivity.
Defined.

(** C1, as stated, fails: the detail of the 400 response is not the
    English sentence "a task with that title already exists". *)
Lemma create_task_duplicate_detail_not_english :
  ¬ (∀ (db : table) (task : Task) i row,
       db !! i = Some row → title row = title task →
       create_task task db
       = (Raise (HTTPException 400 "a task with that title already exists"), db)).
Proof.
  intros H.
  specialize (H db_a (mkTask (mkTaskBase "a" false) None) 1 (mkTaskBase "a" false)
                eq_refl eq_refl).
  vm_compute in H. discriminate H.
Qed.

(** ** Requests on an id: not found, or success *)

(** C5, as stated, fails.  A delete of the id 2^63, which no task has, is
    answered 500 and not 404: the id cannot be bound.  And after the
    creation of a task with the empty title, a toggle of that task is
    answered 500, with the toggled row committed. *)
Lemma by_id_overflow_and_invalid_title :
  ¬ by_id_404_or_200
  ∧ handle (DELETE_tasks (2 ^ 63)) ∅ = (mkResponse 500 internal_server_error, ∅)
  ∧ (run [POST_tasks (json_body "")] ∅).2 = {[ 1 := mkTaskBase "" false ]}
  ∧ handle (PATCH_tasks_toggle 1) {[ 1 := mkTaskBase "" false ]}
    = (mkResponse 500 internal_server_error, {[ 1 := mkTaskBase "" true ]}).
Proof.
  split_and!; [|by vm_compute..].
  intros H. destruct (H [] (2 ^ 63) (DELETE_tasks (2 ^ 63))) as [H404 _]; [by left|].
  destruct H404 as [H404 _]; [done|]. by vm_compute in H404.
Qed.

(** C5, as amended: when no task has the id and the id is a 64-bit
    integer, [update_task], [delete_task], [mark_task_done] and
    [toggle_task] each raise the HTTP 404 exception and return the table
    they were given, and the router answers 404 with the table unchanged;
    when a task has the id, each of them returns normally, the router
    answers 200 to the update and to the delete, and it answers 200 to
    mark-done and toggle when the title of the task has 1 to 100
    characters. *)
Theorem by_id_not_found_or_success (db : table) (task_id : Z) (updated_task : TaskBase) :
  (db !! task_id = None → sqlite_integer task_id = true →
     update_task task_id updated_task db = (Raise not_found, db)
     ∧ delete_task task_id db = (Raise not_found, db)
     ∧ mark_task_done task_id db = (Raise not_found, db)
     ∧ toggle_task task_id db = (Raise not_found, db)
     ∧ ∀ req,
         req = DELETE_tasks task_id ∨ req = PATCH_tasks_done task_id
         ∨ req = PATCH_tasks_toggle task_id
         ∨ (∃ b, req = PUT_tasks task_id b ∧ validate_TaskBase b = Some updated_task) →
         handle req db = (mkResponse 404 (detail_json "Tarea no encontrada"), db))
  ∧ (∀ row, db !! task_id = Some row →
     (∃ r, (update_task task_id updated_task db).1 = Return r)
     ∧ (∃ m, (delete_task task_id db).1 = Return m)
     ∧ (∃ r, (mark_task_done task_id db).1 = Return r)
     ∧ (∃ r, (toggle_task task_id db).1 = Return r)
     ∧ (∀ req,
          req = DELETE_tasks task_id
          ∨ (∃ b, req = PUT_tasks task_id b ∧ validate_TaskBase b = Some updated_task) →
          status (handle req db).1 = 200)
     ∧ ((1 ≤ String.length (title row) ≤ 100)%nat →
        ∀ req,
          req = PATCH_tasks_done task_id ∨ req = PATCH_tasks_toggle task_id →
          status (handle req db).1 = 200)).
Proof.
  split.
  - intros Hn Hint.
    assert (Hu : update_task task_id updated_task db = (Raise not_found, db))
      by (unfold update_task, session_get; by rewrite Hn).
    assert (Hd : delete_task task_id db = (Raise not_found, db))
      by (unfold delete_task, session_get; by rewrite Hn).
    assert (Hm : mark_task_done task_id db = (Raise not_found, db))
      by (unfold mark_task_done, session_get; by rewrite Hn).
    assert (Ht : toggle_task task_id db = (Raise not_found, db))
      by (unfold toggle_task, session_get; by rewrite Hn).
    split_and!; try done.
    intros req [->|[->|[->|(b & -> & Hb)]]]; simpl;
      rewrite ?Hb, (get_overflows_integer db task_id Hint), ?Hu, ?Hd, ?Hm, ?Ht; done.
  - intros row Hrow.
    split_and!.
    1-4: unfold update_task, delete_task, mark_task_done, toggle_task, session_get;
      rewrite Hrow; simpl; eauto.
    + intros req [->|(b & -> & Hb)]; simpl;
        rewrite ?Hb, (get_overflows_row db task_id row Hrow);
        unfold update_task, delete_task, session_get; rewrite Hrow; [done|].
      simpl. unfold validate_TaskRead. simpl.
      destruct updated_task as [t d]. simpl.
      rewrite bool_decide_eq_true_2; [done|].
      by apply (validate_TaskBase_length b (mkTaskBase t d)).
    + intros Hlen req [->| ->]; simpl;
        rewrite (get_overflows_row db task_id row Hrow);
        unfold mark_task_done, toggle_task, session_get; rewrite Hrow; simpl;
        unfold validate_TaskRead; simpl; by rewrite bool_decide_eq_true_2.
Qed.

Lemma by_id_not_found_or_success_witness :
  (update_task 2 (mkTaskBase "b" true) db_a = (Raise not_found, db_a)
   ∧ delete_task 2 db_a = (Raise not_found, db_a))
  ∧ status (handle (PATCH_tasks_toggle 1) db_a).1 = 200.
Proof.
  destruct (by_id_not_found_or_success db_a 2 (mkTaskBase "b" true)) as [Hn _].
  destruct (by_id_not_found_or_success db_a 1 (mkTaskBase "b" true)) as [_ Hs].
  split.
  - destruct Hn as (Hu & Hd & _); [reflexivity|reflexivity|]. by split.
  - destruct (Hs (mkTaskBase "a" false) eq_refl) as (_ & _ & _ & _ & _ & Hp).
    apply Hp; [simpl; lia|by right].
Defined.

(** ** Toggle and mark-done *)

(** C6: for an existing task, the first [toggle_task] returns the record
    with [done] negated, the second returns the original record and the
    table is again the one before the two calls; [mark_task_done] returns
    the record with [done = True] on the first and on the second call, and
    the second call leaves the table as the first one left it. *)
Theorem toggle_involution_mark_done_idempotent (db : table) (task_id : Z) row :
  db !! task_id = Some row →
  (toggle_task task_id db).1
  = Return (mkTaskRead (mkTaskBase (title row) (negb (done row))) task_id)
  ∧ (toggle_task task_id (toggle_task task_id db).2).1
    = Return (mkTaskRead row task_id)
  ∧ (toggle_task task_id (toggle_task task_id db).2).2 = db
  ∧ (mark_task_done task_id db).1
    = Return (mkTaskRead (mkTaskBase (title row) true) task_id)
  ∧ (mark_task_done task_id db).2 !! task_id = Some (mkTaskBase (title row) true)
  ∧ mark_task_done task_id (mark_task_done task_id db).2
    = (Return (mkTaskRead (mkTaskBase (title row) true) task_id),
       (mark_task_done task_id db).2).
Proof.
  intros Hrow. unfold toggle_task, mark_task_done, session_get.
  rewrite Hrow. simpl. rewrite !lookup_insert_eq. simpl.
  rewrite negb_involutive, !insert_insert_eq.
  destruct row as [t d]; simpl.
  repeat split; try done. by apply insert_id.
Qed.

Lemma toggle_involution_mark_done_idempotent_witness :
  db_a !! 1 = Some (mkTaskBase "a" false)
  ∧ (toggle_task 1 (toggle_task 1 db_a).2).2 = db_a.
Proof.
  split; [reflexivity|].
  apply (toggle_involution_mark_done_idempotent db_a 1 (mkTaskBase "a" false)).
  reflexivity.
Defined.

(** ** Update *)

(** C4: for an existing id, [update_task] returns the record made of the
    id and the supplied title and done, and the table afterwards holds
    exactly the supplied title and done under that id, whatever the row
    held before; the router answers 200 with that record.  No title check
    is made: when another task already has the supplied title the update
    succeeds all the same and both tasks then share it, and a table with
    two tasks of one title is reachable from the empty one. *)
Theorem update_task_full_replace (db : table) (task_id : Z) row (updated_task : TaskBase) :
  db !! task_id = Some row →
  update_task task_id updated_task db
  = (Return (mkTaskRead updated_task task_id), <[task_id := updated_task]> db)
  ∧ (update_task task_id updated_task db).2 !! task_id = Some updated_task
  ∧ (∀ b, validate_TaskBase b = Some updated_task →
       handle (PUT_tasks task_id b) db
       = (mkResponse 200 (task_json (mkTaskRead updated_task task_id)),
          <[task_id := updated_task]> db))
  ∧ (∀ j row_j, j ≠ task_id → db !! j = Some row_j → title row_j = title updated_task →
       shares_a_title (update_task task_id updated_task db).2)
  ∧ (∃ db', reachable db' ∧ shares_a_title db').
Proof.
  intros Hrow.
  assert (Hu : update_task task_id updated_task db
    = (Return (mkTaskRead updated_task task_id), <[task_id := updated_task]> db)).
  { unfold update_task, session_get. rewrite Hrow. by destruct updated_task. }
  rewrite Hu. simpl. split_and!; [done|by rewrite lookup_insert_eq|..].
  - intros b Hb. simpl. rewrite Hb, (get_overflows_row db task_id row Hrow), Hu.
    simpl. unfold validate_TaskRead. simpl.
    by rewrite bool_decide_eq_true_2 by by eapply validate_TaskBase_length.
  - intros j row_j Hj Hrj Ht. exists j, task_id, row_j, updated_task.
    by rewrite lookup_insert_eq, lookup_insert_ne.
  - exists (run shared_title_requests ∅).2. split; [by eexists|].
    exists 1, 2, (mkTaskBase "a" false), (mkTaskBase "a" true).
    split; [done|]. by vm_compute.
Qed.

Lemma update_task_full_replace_witness :
  db_a !! 1 = Some (mkTaskBase "a" false)
  ∧ update_task 1 (mkTaskBase "z" true) db_a
    = (Return (mkTaskRead (mkTaskBase "z" true) 1), <[1 := mkTaskBase "z" true]> db_a).
Proof.
  split; [reflexivity|].
  apply (update_task_full_replace db_a 1 (mkTaskBase "a" false)). reflexivity.
Defined.

(** ** What a request can do to the table *)

Lemma elem_of_select_Task (db : table) (r : TaskRead) :
  r ∈ select_Task db ↔ db !! TaskRead_id r = Some (TaskRead_base r).
Proof.
  unfold select_Task. rewrite list_elem_of_fmap. split.
  - intros ([i row] & -> & Hin). by apply elem_of_rows.
  - intros Hr. exists (TaskRead_id r, TaskRead_base r).
    split; [by destruct r|by apply elem_of_rows].
Qed.

Lemma run_cons req reqs (db : table) :
  run (req :: reqs) db
  = ((handle req db).1 :: (run reqs (handle req db).2).1,
     (run reqs (handle req db).2).2).
Proof.
  simpl. destruct (handle req db) as [resp db1]. simpl.
  by destruct (run reqs db1).
Qed.

(** The table after a request is the one its handler leaves: the
    validation of the response, and the refusal of an id that cannot be
    bound, change the answer only. *)
Lemma handle_table req (db : table) :
  (handle req db).2
  = match req with
    | POST_tasks b =>
        match construct_Task b with
        | Some task => (create_task task db).2
        | None => db
        end
    | GET_tasks => db
    | PUT_tasks task_id b =>
        match validate_TaskBase b with
        | Some updated_task => (update_task task_id updated_task db).2
        | None => db
        end
    | DELETE_tasks task_id => (delete_task task_id db).2
    | PATCH_tasks_done task_id => (mark_task_done task_id db).2
    | PATCH_tasks_toggle task_id => (toggle_task task_id db).2
    end.
Proof.
  destruct req as [b| |j b|j|j|j]; simpl.
  - by destruct (construct_Task b).
  - done.
  - destruct (validate_TaskBase b) as [p|]; [|done].
    destruct (get_overflows j db) eqn:E; [|done]. apply get_overflows_absent in E.
    unfold update_task, session_get. by rewrite E.
  - destruct (get_overflows j db) eqn:E; [|done]. apply get_overflows_absent in E.
    unfold delete_task, session_get. by rewrite E.
  - destruct (get_overflows j db) eqn:E; [|done]. apply get_overflows_absent in E.
    unfold mark_task_done, session_get. by rewrite E.
  - destruct (get_overflows j db) eqn:E; [|done]. apply get_overflows_absent in E.
    unfold toggle_task, session_get. by rewrite E.
Qed.

(** Only a creation brings a key into the table. *)
Lemma handle_keeps_absent req (db : table) i :
  is_POST req = false → db !! i = None → (handle req db).2 !! i = None.
Proof.
  intros Hreq Hi. rewrite handle_table.
  destruct req as [b| |j b|j|j|j]; try done.
  - destruct (validate_TaskBase b); [|done]. unfold update_task, session_get.
    destruct (db !! j) eqn:E; [|done]. simpl.
    rewrite lookup_insert_ne; [done|congruence].
  - unfold delete_task, session_get. destruct (db !! j); [|done]. simpl.
    by apply lookup_delete_None; right.
  - unfold mark_task_done, session_get.
    destruct (db !! j) eqn:E; [|done]. simpl.
    rewrite lookup_insert_ne; [done|congruence].
  - unfold toggle_task, session_get.
    destruct (db !! j) eqn:E; [|done]. simpl.
    rewrite lookup_insert_ne; [done|congruence].
Qed.

Lemma run_keeps_absent reqs (db : table) i :
  forallb (λ req, negb (is_POST req)) reqs = true →
  db !! i = None → (run reqs db).2 !! i = None.
Proof.
  revert db. induction reqs as [|req reqs IH]; intros db Hreqs Hi; [done|].
  simpl in Hreqs. apply andb_prop in Hreqs as [Hreq Hreqs].
  rewrite run_cons. simpl. apply IH; [done|].
  apply handle_keeps_absent; [by destruct (is_POST req)|done].
Qed.

Lemma string_length_app (s1 s2 : string) :
  String.length (s1 +:+ s2) = (String.length s1 + String.length s2)%nat.
Proof.
  induction s1 as [|a s1 IH]; [done|].
  change (S (String.length (s1 +:+ s2)) = S (String.length s1 + String.length s2)).
  by rewrite IH.
Qed.

Lemma string_app_inv_tail (s1 s2 t : string) : s1 +:+ t = s2 +:+ t → s1 = s2.
Proof.
  revert s2. induction s1 as [|a s1 IH]; intros [|b s2] H; [done|..].
  - apply (f_equal String.length) in H.
    rewrite !string_length_app in H. simpl in H. lia.
  - apply (f_equal String.length) in H.
    rewrite !string_length_app in H. simpl in H. lia.
  - change (String a (s1 +:+ t) = String b (s2 +:+ t)) in H.
    injection H as -> H. f_equal. by apply IH.
Qed.

(** ** Delete *)

(** C9: for an existing id, [delete_task] returns the message
    "Tarea con id <id> eliminada", in which the decimal form of the id
    occurs and from which the id can be read back, and the router answers
    200 with it; the table afterwards is the one before without the row of
    that id: the id has no row, no listed record carries it, the handlers
    that take an id raise not-found for it, and no later sequence of
    requests without a creation brings a row with that id back. *)
Theorem delete_task_removes_row (db : table) (task_id : Z) row :
  db !! task_id = Some row →
  ∃ mensaje db',
    delete_task task_id db = (Return mensaje, db')
    ∧ handle (DELETE_tasks task_id) db = (mkResponse 200 (mensaje_json mensaje), db')
    ∧ contains (pretty task_id) mensaje
    ∧ (∀ j, mensaje = "Tarea con id " +:+ pretty j +:+ " eliminada" ↔ j = task_id)
    ∧ db' = delete task_id db
    ∧ db' !! task_id = None
    ∧ (∀ r, r ∈ select_Task db' → TaskRead_id r ≠ task_id)
    ∧ (delete_task task_id db').1 = Raise not_found
    ∧ (∀ reqs, forallb (λ req, negb (is_POST req)) reqs = true →
         (run reqs db').2 !! task_id = None).
Proof.
  intros Hrow. eexists _, (delete task_id db).
  assert (Hd : delete_task task_id db
    = (Return ("Tarea con id " +:+ pretty task_id +:+ " eliminada"), delete task_id db))
    by (unfold delete_task, session_get; by rewrite Hrow).
  split_and!; [exact Hd
    |by simpl; rewrite (get_overflows_row db task_id row Hrow), Hd
    |by eexists _, _|..|done| | | |].
  - intros j. split; [|by intros ->].
    intros H. apply (inj (String.app _)) in H.
    apply string_app_inv_tail in H. symmetry. by apply (inj pretty).
  - apply lookup_delete_eq.
  - intros r Hr Heq. apply elem_of_select_Task in Hr.
    by rewrite Heq, lookup_delete_eq in Hr.
  - unfold delete_task, session_get. by rewrite lookup_delete_eq.
  - intros reqs Hreqs. apply run_keeps_absent; [done|apply lookup_delete_eq].
Qed.

Lemma delete_task_removes_row_witness :
  db_a !! 1 = Some (mkTaskBase "a" false)
  ∧ ∃ mensaje db', delete_task 1 db_a = (Return mensaje, db') ∧ db' !! 1 = None.
Proof.
  split; [reflexivity|].
  destruct (delete_task_removes_row db_a 1 (mkTaskBase "a" false) eq_refl)
    as (mensaje & db' & Hd & _ & _ & _ & _ & Hn & _).
  by exists mensaje, db'.
Defined.

(** ** Frame *)

(** C10: a handler that takes an id leaves every row under another id as
    it was (present with the same title and done, or absent);
    [mark_task_done] and [toggle_task] keep the title of the row they
    change and return it under the id they were given; [create_task]
    leaves every row that was in the table as it was; [read_tasks] returns
    the table it was given. *)
Theorem handlers_frame (db : table) (task_id : Z) (updated_task : TaskBase) (task : Task) :
  (∀ j, j ≠ task_id →
     (update_task task_id updated_task db).2 !! j = db !! j
     ∧ (delete_task task_id db).2 !! j = db !! j
     ∧ (mark_task_done task_id db).2 !! j = db !! j
     ∧ (toggle_task task_id db).2 !! j = db !! j)
  ∧ (∀ row, db !! task_id = Some row →
       (∃ d, (mark_task_done task_id db).1
             = Return (mkTaskRead (mkTaskBase (title row) d) task_id)
           ∧ (mark_task_done task_id db).2 !! task_id
             = Some (mkTaskBase (title row) d))
       ∧ (∃ d, (toggle_task task_id db).1
               = Return (mkTaskRead (mkTaskBase (title row) d) task_id)
             ∧ (toggle_task task_id db).2 !! task_id
               = Some (mkTaskBase (title row) d)))
  ∧ (∀ j row, db !! j = Some row → (create_task task db).2 !! j = Some row)
  ∧ (read_tasks db).2 = db.
Proof.
  split_and!; [| | |done].
  - intros j Hj.
    unfold update_task, delete_task, mark_task_done, toggle_task, session_get.
    destruct (db !! task_id); simpl; [|done].
    rewrite !lookup_insert_ne, lookup_delete_ne by done. done.
  - intros row Hrow. unfold mark_task_done, toggle_task, session_get.
    rewrite Hrow. simpl. rewrite !lookup_insert_eq. split; by eexists.
  - intros j row Hj. unfold create_task.
    destruct (first _); [done|].
    destruct (insert_row task db) as [e|[i db']] eqn:E; [done|].
    apply insert_row_spec in E as [Hi ->]. simpl.
    rewrite lookup_insert_ne; [done|congruence].
Qed.

Lemma handlers_frame_witness :
  (toggle_task 1 (<[2 := mkTaskBase "b" true]> db_a)).2 !! 2 = Some (mkTaskBase "b" true).
Proof.
  destruct (handlers_frame (<[2 := mkTaskBase "b" true]> db_a) 1 (mkTaskBase "z" true)
              (mkTask (mkTaskBase "c" false) None)) as [H _].
  destruct (H 2) as (_ & _ & _ & Ht); [lia|]. exact Ht.
Defined.

(** ** Validation of request bodies *)

Lemma create_task_not_422 (task : Task) (db : table) :
  status (respond task_json (create_task task db).1) ≠ 422.
Proof.
  unfold create_task. destruct (first _); [done|].
  destruct (insert_row task db) as [e|[i db']] eqn:E; [|done].
  by apply insert_row_error in E as [-> | ->].
Qed.

(** C8: what the code does with the bodies of the claim.  The update
    route refuses a body without a title, with an empty one or with one of
    more than 100 characters: 422, table unchanged.  The creation route
    applies no constraint: a body with a title of any length is handed to
    [create_task] and is never answered 422, a body without a title is
    answered 500, and the creation of a task with the empty title in the
    empty table is answered 200 and stored. *)
Theorem create_route_skips_validation (b : body) (db : table) (task_id : Z) :
  (validate_TaskBase b = None ↔
     body_title b = None
     ∨ ∃ t, body_title b = Some t ∧ (String.length t = 0 ∨ 100 < String.length t)%nat)
  ∧ (validate_TaskBase b = None →
     handle (PUT_tasks task_id b) db = (mkResponse 422 validation_errors, db))
  ∧ (∀ t, body_title b = Some t →
       let task := mkTask (mkTaskBase t (default false (body_done b))) (body_id b) in
       handle (POST_tasks b) db = prod_map (respond task_json) id (create_task task db)
       ∧ status (handle (POST_tasks b) db).1 ≠ 422)
  ∧ (body_title b = None →
     handle (POST_tasks b) db = (mkResponse 500 internal_server_error, db))
  ∧ handle (POST_tasks (json_body "")) ∅
    = (mkResponse 200 (task_json (mkTaskRead (mkTaskBase "" false) 1)),
       {[ 1 := mkTaskBase "" false ]}).
Proof.
  split_and!.
  - unfold validate_TaskBase. destruct (body_title b) as [t|]; [|by split; eauto].
    case_bool_decide as Hlen; split; try done.
    + intros [?|(t' & [= <-] & ?)]; [done|lia].
    + intros _. right. exists t. split; [done|lia].
  - intros Hv. simpl. by rewrite Hv.
  - intros t Ht task. simpl. unfold construct_Task. rewrite Ht. simpl.
    split; [done|]. apply create_task_not_422.
  - intros Ht. simpl. unfold construct_Task. by rewrite Ht.
  - by vm_compute.
Qed.

Lemma create_route_skips_validation_witness :
  handle (PUT_tasks 1 (json_body "")) db_a = (mkResponse 422 validation_errors, db_a)
  ∧ status (handle (POST_tasks (json_body "")) db_a).1 ≠ 422.
Proof.
  destruct (create_route_skips_validation (json_body "") db_a 1)
    as (_ & Hput & Hpost & _).
  split; [by apply Hput|]. by apply (Hpost "").
Defined.

(** ** The listing against the history of a run *)

Lemma exchanges_cons req reqs (db : table) :
  exchanges (req :: reqs) db
  = (req, (handle req db).1) :: exchanges reqs (handle req db).2.
Proof. unfold exchanges. by rewrite run_cons. Qed.

Lemma titles_valid_insert (db : table) i (x : TaskBase) :
  titles_valid db → (1 ≤ String.length (title x) ≤ 100)%nat →
  titles_valid (<[i := x]> db).
Proof.
  intros Hv Hx j row Hj. destruct (decide (j = i)) as [->|Hne].
  - rewrite lookup_insert_eq in Hj. by injection Hj as <-.
  - rewrite lookup_insert_ne in Hj by done. by eapply Hv.
Qed.

(** Titles stay valid under every request but a creation with an invalid
    title. *)
Lemma handle_titles_valid req (db : table) :
  titles_valid db → valid_creation req = true → titles_valid (handle req db).2.
Proof.
  intros Hv Hreq. rewrite handle_table. destruct req as [b| |j b|j|j|j]; try done.
  - unfold construct_Task. simpl in Hreq. destruct (body_title b) as [t|]; [|done].
    simpl. apply bool_decide_eq_true_1 in Hreq.
    unfold create_task. destruct (first _); [done|].
    destruct (insert_row _ db) as [e|[i db']] eqn:Hins; [done|].
    apply insert_row_spec in Hins as [_ ->]. simpl.
    by apply titles_valid_insert.
  - destruct (validate_TaskBase b) as [p|] eqn:Hp; [|done].
    unfold update_task. destruct (session_get j db); [|done]. simpl.
    apply titles_valid_insert; [done|]. simpl. by eapply validate_TaskBase_length.
  - unfold delete_task. destruct (session_get j db); [|done]. simpl.
    intros i row Hi. apply lookup_delete_Some in Hi as [_ Hi]. by eapply Hv.
  - unfold mark_task_done, session_get. destruct (db !! j) as [row|] eqn:E; [|done].
    simpl. apply titles_valid_insert; [done|]. simpl. by eapply Hv.
  - unfold toggle_task, session_get. destruct (db !! j) as [row|] eqn:E; [|done].
    simpl. apply titles_valid_insert; [done|]. simpl. by eapply Hv.
Qed.

Lemma run_titles_valid reqs (db : table) :
  titles_valid db → forallb valid_creation reqs = true →
  titles_valid (run reqs db).2.
Proof.
  revert db. induction reqs as [|req reqs IH]; intros db Hv Hreqs; [done|].
  simpl in Hreqs. apply andb_prop in Hreqs as [Hreq Hreqs].
  rewrite run_cons. simpl. apply IH; [|done]. by apply handle_titles_valid.
Qed.

(** The listing of a table whose titles are valid passes the validation
    of the response. *)
Lemma select_Task_valid (db : table) :
  titles_valid db → forallb validate_TaskRead (select_Task db) = true.
Proof.
  intros Hv. apply forallb_forall. intros r Hr%list_elem_of_In%elem_of_select_Task.
  unfold validate_TaskRead. apply bool_decide_eq_true_2. by eapply Hv.
Qed.

Lemma agrees_is_Some (db : table) a v i row :
  agrees db a v → db !! i = Some row → a i = true.
Proof. intros H Hi. specialize (H i). destruct (a i); [done|congruence]. Qed.

(** A table change at one id, with the history's change at that id. *)
Lemma agrees_write (db : table) a v j (r : TaskRead) a' v' :
  agrees db a v → TaskRead_id r = j →
  a' j = true → v' j = Some r →
  (∀ i, i ≠ j → a' i = a i ∧ v' i = v i) →
  agrees (<[j := TaskRead_base r]> db) a' v'.
Proof.
  intros H Hr Ha Hv Hother i. destruct (decide (i = j)) as [->|Hne].
  - rewrite Ha. exists r. by rewrite lookup_insert_eq.
  - destruct (Hother i Hne) as [-> ->]. rewrite lookup_insert_ne by done. apply H.
Qed.

Lemma agrees_same (db : table) a v a' v' :
  agrees db a v → (∀ i, a' i = a i ∧ v' i = v i) → agrees db a' v'.
Proof. intros H Hsame i. destruct (Hsame i) as [-> ->]. apply H. Qed.

(** On a table whose titles are valid, a request keeps the table in
    agreement with the history. *)
Lemma handle_agrees req (db : table) a v :
  titles_valid db → agrees db a v →
  agrees (handle req db).2
    (λ i, step_alive i (a i) (req, (handle req db).1))
    (λ i, step_values i (v i) (req, (handle req db).1)).
Proof.
  intros Hval H. destruct req as [b| |j b|j|j|j]; simpl.
  - destruct (construct_Task b) as [task|]; [|by eapply agrees_same].
    unfold create_task. destruct (first _); [by eapply agrees_same|].
    destruct (insert_row task db) as [e|[j db']] eqn:E.
    { destruct e; by eapply agrees_same. }
    apply insert_row_spec in E as [Hj ->]. simpl.
    apply (agrees_write db a v j (mkTaskRead task j)); try done.
    + unfold step_alive, creates. simpl. by rewrite bool_decide_eq_true_2.
    + unfold step_values. simpl. by rewrite decide_True.
    + intros i Hi. unfold step_alive, step_values, creates, deletes. simpl.
      rewrite bool_decide_eq_false_2 by congruence. by rewrite decide_False.
  - destruct (forallb _ _); by eapply agrees_same.
  - destruct (validate_TaskBase b) as [p|] eqn:Hp; [|by eapply agrees_same].
    destruct (get_overflows j db); [by eapply agrees_same|].
    unfold update_task, session_get.
    destruct (db !! j) as [row|] eqn:E; [|by eapply agrees_same]. simpl.
    unfold validate_TaskRead. simpl.
    rewrite bool_decide_eq_true_2 by by eapply validate_TaskBase_length. simpl.
    apply (agrees_write db a v j (mkTaskRead _ j)); try done.
    + unfold step_alive, creates, deletes. simpl. by eapply agrees_is_Some.
    + unfold step_values. simpl. by rewrite decide_True.
    + intros i Hi. unfold step_alive, step_values, creates, deletes. simpl.
      by rewrite decide_False.
  - destruct (get_overflows j db); [by eapply agrees_same|].
    unfold delete_task, session_get.
    destruct (db !! j) as [row|] eqn:E; [|by eapply agrees_same]. simpl.
    intros i. unfold step_alive, step_values, creates, deletes. simpl.
    destruct (decide (j = i)) as [->|Hne].
    + rewrite bool_decide_eq_true_2 by done. apply lookup_delete_eq.
    + rewrite bool_decide_eq_false_2 by done. rewrite lookup_delete_ne by done.
      apply H.
  - destruct (get_overflows j db); [by eapply agrees_same|].
    unfold mark_task_done, session_get.
    destruct (db !! j) as [row|] eqn:E; [|by eapply agrees_same]. simpl.
    unfold validate_TaskRead. simpl.
    rewrite bool_decide_eq_true_2 by by eapply Hval. simpl.
    apply (agrees_write db a v j (mkTaskRead _ j)); try done.
    + unfold step_alive, creates, deletes. simpl. by eapply agrees_is_Some.
    + unfold step_values. simpl. by rewrite decide_True.
    + intros i Hi. unfold step_alive, step_values, creates, deletes. simpl.
      by rewrite decide_False.
  - destruct (get_overflows j db); [by eapply agrees_same|].
    unfold toggle_task, session_get.
    destruct (db !! j) as [row|] eqn:E; [|by eapply agrees_same]. simpl.
    unfold validate_TaskRead. simpl.
    rewrite bool_decide_eq_true_2 by by eapply Hval. simpl.
    apply (agrees_write db a v j (mkTaskRead _ j)); try done.
    + unfold step_alive, creates, deletes. simpl. by eapply agrees_is_Some.
    + unfold step_values. simpl. by rewrite decide_True.
    + intros i Hi. unfold step_alive, step_values, creates, deletes. simpl.
      by rewrite decide_False.
Qed.

Lemma run_agrees reqs (db : table) a v :
  forallb valid_creation reqs = true → titles_valid db → agrees db a v →
  agrees (run reqs db).2
    (λ i, foldl (step_alive i) (a i) (exchanges reqs db))
    (λ i, foldl (step_values i) (v i) (exchanges reqs db)).
Proof.
  revert db a v. induction reqs as [|req reqs IH]; intros db a v Hreqs Hval H; [done|].
  simpl in Hreqs. apply andb_prop in Hreqs as [Hreq Hreqs].
  rewrite run_cons. simpl.
  eapply agrees_same.
  - apply IH; [done|by apply handle_titles_valid|]. by apply (handle_agrees req).
  - intros i. by rewrite exchanges_cons.
Qed.

(** C7: what the code does where the claim fails.  As long as a row with a
    title outside 1 to 100 characters is stored, the listing is not
    returned: the route answers 500.  Such a row is stored by a creation
    with the empty title; a toggle of it is then committed and answered
    500, so that the stored record is not the one of the last successful
    operation on the task. *)
Theorem listing_fails_on_invalid_title (db : table) i row :
  db !! i = Some row → ¬ (1 ≤ String.length (title row) ≤ 100)%nat →
  handle GET_tasks db = (mkResponse 500 internal_server_error, db)
  ∧ (let reqs := [POST_tasks (json_body ""); PATCH_tasks_toggle 1] in
     (run (reqs ++ [GET_tasks]) ∅).1
     = [mkResponse 200 (task_json (mkTaskRead (mkTaskBase "" false) 1));
        mkResponse 500 internal_server_error;
        mkResponse 500 internal_server_error]
     ∧ select_Task (run reqs ∅).2 = [mkTaskRead (mkTaskBase "" true) 1]
     ∧ last_values 1 (exchanges reqs ∅) = Some (mkTaskRead (mkTaskBase "" false) 1)).
Proof.
  intros Hrow Hlen. split; [|by vm_compute].
  simpl. destruct (forallb validate_TaskRead (select_Task db)) eqn:E; [|done].
  exfalso. apply Hlen.
  assert (Hin : In (mkTaskRead row i) (select_Task db))
    by by apply list_elem_of_In, elem_of_select_Task.
  pose proof (proj1 (forallb_forall _ _) E _ Hin) as Hv.
  by apply bool_decide_eq_true_1 in Hv.
Qed.

Lemma listing_fails_on_invalid_title_witness :
  handle GET_tasks (run [POST_tasks (json_body "")] ∅).2
  = (mkResponse 500 internal_server_error, (run [POST_tasks (json_body "")] ∅).2).
Proof.
  apply (listing_fails_on_invalid_title (run [POST_tasks (json_body "")] ∅).2
           1 (mkTaskBase "" false)); [reflexivity|simpl; lia].
Defined.

(** ** Creation with a new title, and the ids of tasks *)

(** C2, as stated, fails.  After creating a task and deleting it, the next
    creation gets the id of the deleted task again, whether the storage
    chooses the id or the body names it; and a creation whose body carries
    the id of a stored task does not succeed, however new its title is. *)
Lemma create_reuses_deleted_id :
  ¬ create_assigns_unused_id
  ∧ (let reqs := [POST_tasks (json_body "a"); DELETE_tasks 1] in
     assigned_ids (exchanges reqs ∅) = [1]
     ∧ (handle (POST_tasks (json_body "b")) (run reqs ∅).2).1
       = mkResponse 200 (task_json (mkTaskRead (mkTaskBase "b" false) 1)))
  ∧ (let reqs := [POST_tasks (mkBody (Some "a") None (Some 5)); DELETE_tasks 5] in
     assigned_ids (exchanges reqs ∅) = [5]
     ∧ (handle (POST_tasks (mkBody (Some "b") None (Some 5))) (run reqs ∅).2).1
       = mkResponse 200 (task_json (mkTaskRead (mkTaskBase "b" false) 5)))
  ∧ handle (POST_tasks (mkBody (Some "b") None (Some 1))) db_a
    = (mkResponse 500 internal_server_error, db_a).
Proof.
  split_and!; [|by vm_compute|by vm_compute|by vm_compute].
  intros H.
  destruct (H [POST_tasks (json_body "a"); DELETE_tasks 1] (json_body "b") "b")
    as (r & Hr & Hnew); [done|simpl; lia| |].
  - intros i row Hi. by vm_compute in Hi.
  - vm_compute in Hr. injection Hr as <-. apply Hnew. vm_compute.
    apply list_elem_of_here.
Qed.

(** C2, as amended: in every state in which no task has the title, a
    creation whose body has that title, of 1 to 100 characters, and no id
    succeeds: the response is 200 with the full record, made of the title,
    the done flag of the body ([False] when absent) and an id that no task
    stored at that moment has, and the table afterwards is the one before
    with that record added. *)
Theorem create_task_new_title (db : table) (b : body) (t : string) :
  body_title b = Some t → (1 ≤ String.length t ≤ 100)%nat → body_id b = None →
  no_task_titled t db →
  ∃ r, handle (POST_tasks b) db
       = (mkResponse 200 (task_json r), <[TaskRead_id r := TaskRead_base r]> db)
       ∧ create_task (mkTask (TaskRead_base r) None) db
         = (Return r, <[TaskRead_id r := TaskRead_base r]> db)
       ∧ TaskRead_base r = mkTaskBase t (default false (body_done b))
       ∧ db !! TaskRead_id r = None.
Proof.
  intros Ht Hlen Hid Hnew.
  exists (mkTaskRead (mkTaskBase t (default false (body_done b))) (next_rowid db)).
  assert (Hc : create_task (mkTask (mkTaskBase t (default false (body_done b))) None) db
    = (Return (mkTaskRead (mkTaskBase t (default false (body_done b))) (next_rowid db)),
       <[next_rowid db := mkTaskBase t (default false (body_done b))]> db)).
  { unfold create_task. simpl.
    by destruct (first_select_None db t) as [_ ->]. }
  split_and!; [|done|done|apply next_rowid_fresh].
  simpl. unfold construct_Task. rewrite Ht, Hid. simpl. by rewrite Hc.
Qed.

Lemma create_task_new_title_witness :
  no_task_titled "b" db_a
  ∧ ∃ r, handle (POST_tasks (json_body "b")) db_a
         = (mkResponse 200 (task_json r), <[TaskRead_id r := TaskRead_base r]> db_a)
         ∧ db_a !! TaskRead_id r = None.
Proof.
  assert (Hnew : no_task_titled "b" db_a).
  { intros i row Hi. unfold db_a in Hi.
    apply lookup_singleton_Some in Hi as [_ <-]. discriminate. }
  split; [exact Hnew|].
  destruct (create_task_new_title db_a (json_body "b") "b") as (r & Hr & _ & _ & Hn);
    [reflexivity|simpl; lia|reflexivity|exact Hnew|].
  by exists r.
Defined.

(** C3, as stated, fails on both: a creation whose body names the id 7
    returns a task with the id 7; and after two creations and the deletion
    of the second task, the third creation returns the id 2 again. *)
Lemma id_from_client_and_reused :
  ¬ id_not_from_client ∧ ¬ id_never_reused.
Proof.
  split.
  - intros H. specialize (H ∅ (json_body "a") 7). by vm_compute in H.
  - intros H.
    apply (H [POST_tasks (json_body "a"); POST_tasks (json_body "b"); DELETE_tasks 2]
             (json_body "c") (mkTaskRead (mkTaskBase "c" false) 2)).
    + by vm_compute.
    + vm_compute. apply list_elem_of_further, list_elem_of_here.
Qed.

(** C3, as amended: [update_task], [mark_task_done] and [toggle_task] on
    an existing task return its record under the same id and leave the set
    of ids of the table as it was; and whenever [create_task] returns a
    record, its id was the id of no task stored before the call and is the
    id of the new row after it. *)
Theorem task_id_stable_and_new (db : table) (task_id : Z) row
    (updated_task : TaskBase) (task : Task) :
  db !! task_id = Some row →
  (∃ r, (update_task task_id updated_task db).1 = Return r ∧ TaskRead_id r = task_id)
  ∧ (∃ r, (mark_task_done task_id db).1 = Return r ∧ TaskRead_id r = task_id)
  ∧ (∃ r, (toggle_task task_id db).1 = Return r ∧ TaskRead_id r = task_id)
  ∧ dom (update_task task_id updated_task db).2 = dom db
  ∧ dom (mark_task_done task_id db).2 = dom db
  ∧ dom (toggle_task task_id db).2 = dom db
  ∧ (∀ r db', create_task task db = (Return r, db') →
       db !! TaskRead_id r = None
       ∧ db' = <[TaskRead_id r := Task_base task]> db
       ∧ TaskRead_base r = Task_base task).
Proof.
  intros Hrow. unfold update_task, mark_task_done, toggle_task, session_get.
  rewrite Hrow. simpl.
  assert (Hdom : ∀ x : TaskBase, dom (<[task_id := x]> db) = dom db).
  { intros x. apply dom_insert_lookup_L. eauto. }
  split_and!; eauto.
  intros r db'. unfold create_task. destruct (first _); [done|].
  destruct (insert_row task db) as [e|[i db1]] eqn:E; [done|].
  apply insert_row_spec in E as [Hi ->]. intros [= <- <-]. done.
Qed.

Lemma task_id_stable_and_new_witness :
  db_a !! 1 = Some (mkTaskBase "a" false)
  ∧ dom (toggle_task 1 db_a).2 = dom db_a.
Proof.
  split; [reflexivity|].
  apply (task_id_stable_and_new db_a 1 (mkTaskBase "a" false) (mkTaskBase "z" true)
           (mkTask (mkTaskBase "c" false) None)).
  reflexivity.
Defined.

(** ** A scenario, and a history with a reused id

    Create, create again, toggle twice, delete, list, update the deleted
    task, create with the empty title: the last request is answered 200
    and stored. *)

Example scenario :
  (run [POST_tasks (json_body "Buy milk"); POST_tasks (json_body "Buy milk");
        PATCH_tasks_toggle 1; PATCH_tasks_toggle 1; DELETE_tasks 1; GET_tasks;
        PUT_tasks 1 (json_body "x"); POST_tasks (json_body "")] ∅).1
  = [mkResponse 200 (task_json (mkTaskRead (mkTaskBase "Buy milk" false) 1));
     mkResponse 400 (detail_json "Ya existe una tarea con ese título");
     mkResponse 200 (task_json (mkTaskRead (mkTaskBase "Buy milk" true) 1));
     mkResponse 200 (task_json (mkTaskRead (mkTaskBase "Buy milk" false) 1));
     mkResponse 200 (mensaje_json "Tarea con id 1 eliminada");
     mkResponse 200 (tasks_json []);
     mkResponse 404 (detail_json "Tarea no encontrada");
     mkResponse 200 (task_json (mkTaskRead (mkTaskBase "" false) 1))].
Proof. vm_compute. reflexivity. Qed.

Example history_with_reuse :
  let reqs := [POST_tasks (json_body "a"); POST_tasks (json_body "b");
               PATCH_tasks_done 1; DELETE_tasks 2; POST_tasks (json_body "c");
               PUT_tasks 7 (json_body "d"); PATCH_tasks_toggle 2] in
  select_Task (run reqs ∅).2
  = [mkTaskRead (mkTaskBase "a" true) 1; mkTaskRead (mkTaskBase "c" true) 2]
  ∧ alive 1 (exchanges reqs ∅) = true
  ∧ last_values 1 (exchanges reqs ∅) = Some (mkTaskRead (mkTaskBase "a" true) 1)
  ∧ last_values 2 (exchanges reqs ∅) = Some (mkTaskRead (mkTaskBase "c" true) 2)
  ∧ alive 7 (exchanges reqs ∅) = false
  ∧ assigned_ids (exchanges reqs ∅) = [1; 2; 2].
Proof. vm_compute. repeat split. Qed.

Example history_after_deletion :
  let reqs := [POST_tasks (json_body "a"); PATCH_tasks_done 1; DELETE_tasks 1] in
  alive 1 (exchanges reqs ∅) = false
  ∧ last_values 1 (exchanges reqs ∅) = Some (mkTaskRead (mkTaskBase "a" true) 1)
  ∧ select_Task (run reqs ∅).2 = [].
Proof. vm_compute. repeat split. Qed.

(** * Further properties of the handlers *)

(** ** Failures *)

(** X1: a request that is not answered with status 200 has written
    nothing, with one exception: a mark-done or toggle of a task whose
    stored title has not 1 to 100 characters is committed and then
    answered 500, when the returned record fails the validation of the
    response.  In particular a 400, 404 or 422 answer means that the table
    is unchanged. *)
Theorem failure_writes_nothing (req : request) (db : table) :
  status (handle req db).1 ≠ 200 →
  (handle req db).2 = db
  ∨ (status (handle req db).1 = 500
     ∧ ∃ i row,
         (req = PATCH_tasks_done i ∨ req = PATCH_tasks_toggle i)
         ∧ db !! i = Some row
         ∧ ¬ (1 ≤ String.length (title row) ≤ 100)%nat).
Proof.
  destruct req as [b| |j b|j|j|j]; simpl.
  - destruct (construct_Task b) as [task|]; [|by left]. unfold create_task.
    destruct (first _); [by left|].
    destruct (insert_row task db) as [e|[i db']]; simpl; [by left|].
    intros H. by destruct H.
  - by left.
  - destruct (validate_TaskBase b) as [p|] eqn:Hp; [|by left].
    destruct (get_overflows j db); [by left|].
    unfold update_task. destruct (session_get j db); simpl; [|by left].
    unfold validate_TaskRead. simpl.
    rewrite bool_decide_eq_true_2 by by eapply validate_TaskBase_length.
    intros H. by destruct H.
  - destruct (get_overflows j db); [by left|].
    unfold delete_task. destruct (session_get j db); simpl; [|by left].
    intros H. by destruct H.
  - destruct (get_overflows j db); [by left|].
    unfold mark_task_done, session_get. destruct (db !! j) as [row|] eqn:E; simpl;
      [|by left].
    unfold validate_TaskRead. simpl. case_bool_decide as Hlen; simpl.
    + intros H. by destruct H.
    + intros _. right. split; [done|]. exists j, row. eauto.
  - destruct (get_overflows j db); [by left|].
    unfold toggle_task, session_get. destruct (db !! j) as [row|] eqn:E; simpl;
      [|by left].
    unfold validate_TaskRead. simpl. case_bool_decide as Hlen; simpl.
    + intros H. by destruct H.
    + intros _. right. split; [done|]. exists j, row. eauto.
Qed.

Lemma failure_writes_nothing_witness :
  (handle (PATCH_tasks_toggle 2) db_a).2 = db_a
  ∨ (status (handle (PATCH_tasks_toggle 2) db_a).1 = 500
     ∧ ∃ i row,
         (PATCH_tasks_toggle 2 = PATCH_tasks_done i
          ∨ PATCH_tasks_toggle 2 = PATCH_tasks_toggle i)
         ∧ db_a !! i = Some row
         ∧ ¬ (1 ≤ String.length (title row) ≤ 100)%nat).
Proof.
  apply (failure_writes_nothing (PATCH_tasks_toggle 2) db_a).
  vm_compute. discriminate.
Defined.






(** ** Titles *)

Lemma titles_unique_insert (db : table) i (x : TaskBase) :
  titles_unique db →
  (∀ j row, j ≠ i → db !! j = Some row → title row ≠ title x) →
  titles_unique (<[i := x]> db).
Proof.
  intros Hu Hx i1 i2 r1 r2 H1 H2 Ht.
  destruct (decide (i1 = i)) as [->|N1], (decide (i2 = i)) as [->|N2]; [done|..].
  - rewrite lookup_insert_eq in H1. rewrite lookup_insert_ne in H2 by done.
    injection H1 as <-. by destruct (Hx i2 r2).
  - rewrite lookup_insert_eq in H2. rewrite lookup_insert_ne in H1 by done.
    injection H2 as <-. by destruct (Hx i1 r1).
  - rewrite lookup_insert_ne in H1, H2 by done. by eapply Hu.
Qed.

Lemma titles_unique_delete (db : table) i :
  titles_unique db → titles_unique (delete i db).
Proof.
  intros Hu i1 i2 r1 r2 H1 H2 Ht.
  apply lookup_delete_Some in H1 as [_ H1]. apply lookup_delete_Some in H2 as [_ H2].
  by eapply Hu.
Qed.

(** Replacing a row by one of the same title keeps the titles distinct. *)
Lemma titles_unique_same_title (db : table) i row (x : TaskBase) :
  titles_unique db → db !! i = Some row → title x = title row →
  titles_unique (<[i := x]> db).
Proof.
  intros Hu Hi Hx. apply titles_unique_insert; [done|].
  intros j rowj Hj Hrow Ht. apply Hj. eapply Hu; [done..|congruence].
Qed.

Lemma handle_titles_unique req (db : table) :
  titles_unique db → is_PUT req = false → titles_unique (handle req db).2.
Proof.
  intros Hu Hreq. rewrite handle_table. destruct req as [b| |j b|j|j|j]; try done.
  - destruct (construct_Task b) as [task|]; [|done]. unfold create_task.
    destruct (first _) eqn:E; [done|].
    pose proof (proj1 (first_select_None db (title task)) E) as Hno.
    destruct (insert_row task db) as [e|[i db']] eqn:Hins; [done|].
    apply insert_row_spec in Hins as [_ ->]. simpl.
    apply titles_unique_insert; [done|]. intros j row _. apply Hno.
  - unfold delete_task. destruct (session_get j db); [|done].
    by apply titles_unique_delete.
  - unfold mark_task_done, session_get. destruct (db !! j) as [row|] eqn:E; [|done].
    by eapply titles_unique_same_title.
  - unfold toggle_task, session_get. destruct (db !! j) as [row|] eqn:E; [|done].
    by eapply titles_unique_same_title.
Qed.

(** X4: creation, listing, delete, mark-done and toggle keep the titles of
    the table pairwise distinct: a sequence of requests without an update,
    started on a table without duplicate titles, ends on one. *)
Theorem titles_unique_without_update (reqs : list request) (db : table) :
  titles_unique db →
  forallb (λ req, negb (is_PUT req)) reqs = true →
  titles_unique (run reqs db).2.
Proof.
  revert db. induction reqs as [|req reqs IH]; intros db Hu Hreqs; [done|].
  simpl in Hreqs. apply andb_prop in Hreqs as [Hreq Hreqs].
  rewrite run_cons. simpl. apply IH; [|done].
  apply handle_titles_unique; [done|by destruct (is_PUT req)].
Qed.

Lemma titles_unique_empty : titles_unique (∅ : table).
Proof. intros i j ri rj Hi. by rewrite lookup_empty in Hi. Qed.

Lemma titles_unique_without_update_witness :
  titles_unique
    (run [POST_tasks (json_body "a"); POST_tasks (json_body "b");
          POST_tasks (json_body "a"); PATCH_tasks_toggle 2; DELETE_tasks 1] ∅).2.
Proof.
  apply (titles_unique_without_update
           [POST_tasks (json_body "a"); POST_tasks (json_body "b");
            POST_tasks (json_body "a"); PATCH_tasks_toggle 2; DELETE_tasks 1] ∅).
  - exact titles_unique_empty.
  - reflexivity.
Defined.

(** X5: on a table without duplicate titles, [update_task] on an existing
    id leaves the titles pairwise distinct exactly when no other task has
    the supplied title. *)
Theorem update_task_keeps_titles_unique (db : table) (task_id : Z) row
    (updated_task : TaskBase) :
  titles_unique db → db !! task_id = Some row →
  (titles_unique (update_task task_id updated_task db).2
   ↔ ∀ j row_j, j ≠ task_id → db !! j = Some row_j →
       title row_j ≠ title updated_task).
Proof.
  intros Hu Hrow. unfold update_task, session_get. rewrite Hrow. simpl. split.
  - intros Hu' j row_j Hj Hrj Ht. apply Hj.
    apply (Hu' j task_id row_j (mkTaskBase (title updated_task) (done updated_task))).
    + by rewrite lookup_insert_ne.
    + by rewrite lookup_insert_eq.
    + done.
  - intros Hx. by apply titles_unique_insert.
Qed.

Lemma update_task_keeps_titles_unique_witness :
  titles_unique (update_task 1 (mkTaskBase "z" true) db_a).2.
Proof.
  assert (Hu : titles_unique db_a).
  { intros i j ri rj Hi Hj _. unfold db_a in Hi, Hj.
    apply lookup_singleton_Some in Hi as [<- _].
    by apply lookup_singleton_Some in Hj as [<- _]. }
  apply (update_task_keeps_titles_unique db_a 1 (mkTaskBase "a" false)
           (mkTaskBase "z" true) Hu eq_refl).
  intros j row_j Hj Hrj. unfold db_a in Hrj.
  apply lookup_singleton_Some in Hrj as [<- _]. by destruct Hj.
Defined.

(** X6: a title outside 1 to 100 characters can only come into the table
    with a creation: from a table whose titles are all valid, a sequence
    of requests in which every creation body that has a title has a valid
    one (updates, deletes, mark-done and toggles being arbitrary) ends on
    a table whose titles are all valid. *)
Theorem stored_titles_valid (reqs : list request) (db : table) i row :
  titles_valid db → forallb valid_creation reqs = true →
  (run reqs db).2 !! i = Some row → (1 ≤ String.length (title row) ≤ 100)%nat.
Proof. intros Hv Hreqs. by apply (run_titles_valid reqs db). Qed.

Lemma stored_titles_valid_witness :
  (run [PUT_tasks 1 (json_body ""); PUT_tasks 1 (json_body "Buy milk")] db_a).2 !! 1
  = Some (mkTaskBase "Buy milk" false)
  ∧ (1 ≤ String.length "Buy milk" ≤ 100)%nat.
Proof.
  split; [reflexivity|].
  apply (stored_titles_valid
           [PUT_tasks 1 (json_body ""); PUT_tasks 1 (json_body "Buy milk")] db_a
           1 (mkTaskBase "Buy milk" false)); [|reflexivity..].
  intros i row Hi. unfold db_a in Hi.
  apply lookup_singleton_Some in Hi as [_ <-]. simpl. lia.
Defined.

(** ** How the handlers compose *)

(** X7: deleting the task that a creation has just returned undoes the
    creation: the delete succeeds and the table is again the one before
    the creation. *)
Theorem create_then_delete (task : Task) (db db' : table) (r : TaskRead) :
  create_task task db = (Return r, db') →
  delete_task (TaskRead_id r) db'
  = (Return ("Tarea con id " +:+ pretty (TaskRead_id r) +:+ " eliminada"), db).
Proof.
  unfold create_task. destruct (first _); [done|].
  destruct (insert_row task db) as [e|[i db1]] eqn:E; [done|].
  apply insert_row_spec in E as [Hi ->]. intros [= <- <-]. simpl.
  unfold delete_task, session_get. rewrite lookup_insert_eq.
  by rewrite delete_insert_id.
Qed.

Lemma create_then_delete_witness :
  delete_task 2 (<[2 := mkTaskBase "b" false]> db_a)
  = (Return ("Tarea con id " +:+ pretty 2 +:+ " eliminada"), db_a).
Proof.
  apply (create_then_delete (mkTask (mkTaskBase "b" false) None) db_a
           (<[2 := mkTaskBase "b" false]> db_a)
           (mkTaskRead (mkTaskBase "b" false) 2)).
  reflexivity.
Defined.

(** X8: once a creation has returned a record, every later creation with
    the same title, whatever its done flag and id, is refused with the 400
    exception and writes nothing, as long as the table is the one the
    first creation left. *)
Theorem create_twice_refused (task task' : Task) (db db' : table) (r : TaskRead) :
  create_task task db = (Return r, db') → title task' = title task →
  create_task task' db'
  = (Raise (HTTPException 400 "Ya existe una tarea con ese título"), db').
Proof.
  unfold create_task at 1. destruct (first _); [done|].
  destruct (insert_row task db) as [e|[i db1]] eqn:E; [done|].
  apply insert_row_spec in E as [Hi ->]. intros [= <- <-] Ht.
  unfold create_task.
  destruct (first_select_is_Some (<[i := Task_base task]> db) (title task'))
    as [_ [x ->]]; [|done].
  exists i, (Task_base task). by rewrite lookup_insert_eq.
Qed.

Lemma create_twice_refused_witness :
  create_task (mkTask (mkTaskBase "b" true) (Some 9)) (<[2 := mkTaskBase "b" false]> db_a)
  = (Raise (HTTPException 400 "Ya existe una tarea con ese título"),
     <[2 := mkTaskBase "b" false]> db_a).
Proof.
  apply (create_twice_refused (mkTask (mkTaskBase "b" false) None)
           (mkTask (mkTaskBase "b" true) (Some 9)) db_a
           (<[2 := mkTaskBase "b" false]> db_a)
           (mkTaskRead (mkTaskBase "b" false) 2)); reflexivity.
Defined.

(** X9: of two updates of an existing task the last one wins: the result
    is the one of the second update alone.  In particular an update
    repeated with the same payload changes nothing more, and an update
    with the title and done that the task already has leaves the table as
    it is. *)
Theorem update_task_last_wins (db : table) (task_id : Z) row (p1 p2 : TaskBase) :
  db !! task_id = Some row →
  update_task task_id p2 (update_task task_id p1 db).2 = update_task task_id p2 db
  ∧ update_task task_id p1 (update_task task_id p1 db).2 = update_task task_id p1 db
  ∧ update_task task_id row db = (Return (mkTaskRead row task_id), db).
Proof.
  intros Hrow. unfold update_task, session_get. rewrite Hrow. simpl.
  rewrite !lookup_insert_eq, !insert_insert_eq. split_and!; [done..|].
  destruct row as [t d]. simpl. by rewrite insert_id.
Qed.

Lemma update_task_last_wins_witness :
  update_task 1 (mkTaskBase "c" true) (update_task 1 (mkTaskBase "b" false) db_a).2
  = update_task 1 (mkTaskBase "c" true) db_a.
Proof.
  apply (update_task_last_wins db_a 1 (mkTaskBase "a" false)
           (mkTaskBase "b" false) (mkTaskBase "c" true)).
  reflexivity.
Defined.

(** X10: after [n] consecutive toggles of an existing task, its done flag
    is the original one when [n] is even and its negation when [n] is odd;
    its title and every other row are as before, so an even number of
    toggles restores the table. *)
Theorem toggles_parity (db : table) (task_id : Z) row (n : nat) :
  db !! task_id = Some row →
  toggles task_id n db
  = <[task_id := mkTaskBase (title row) (xorb (done row) (Nat.odd n))]> db
  ∧ (Nat.even n = true → toggles task_id n db = db).
Proof.
  intros Hrow.
  assert (H : toggles task_id n db
    = <[task_id := mkTaskBase (title row) (xorb (done row) (Nat.odd n))]> db).
  { induction n as [|n IH].
    - simpl. rewrite xorb_false_r. destruct row. by rewrite insert_id.
    - unfold toggles in *. simpl. rewrite IH.
      unfold toggle_task, session_get. rewrite lookup_insert_eq. simpl.
      rewrite insert_insert_eq. do 2 f_equal.
      rewrite negb_xorb_r, Nat.negb_odd. symmetry.
      f_equal. apply Nat.odd_succ. }
  split; [done|]. intros Heven. rewrite H.
  rewrite <- Nat.negb_even, Heven. simpl. rewrite xorb_false_r.
  destruct row. by rewrite insert_id.
Qed.

Lemma toggles_parity_witness :
  toggles 1 3 db_a = <[1 := mkTaskBase "a" true]> db_a.
Proof.
  apply (toggles_parity db_a 1 (mkTaskBase "a" false) 3). reflexivity.
Defined.

(** X11: a listed record sent back as an update (its own title and done
    under its own id) never changes the table: it is answered 200 with the
    record when its title has 1 to 100 characters, and 422 otherwise, as
    for a record that a creation stored with an invalid title. *)
Theorem put_back_listed_record (db : table) (r : TaskRead) :
  r ∈ select_Task db →
  handle (PUT_tasks (TaskRead_id r) (mkBody (Some (title r)) (Some (done r)) None)) db
  = (if validate_TaskRead r then mkResponse 200 (task_json r) else unprocessable, db).
Proof.
  intros Hr. apply elem_of_select_Task in Hr.
  simpl. unfold validate_TaskBase, validate_TaskRead. simpl.
  case_bool_decide as Hlen; [|done].
  rewrite (get_overflows_row db _ _ Hr).
  unfold update_task, session_get. rewrite Hr. simpl.
  unfold validate_TaskRead. simpl. rewrite bool_decide_eq_true_2 by done. simpl.
  destruct r as [[t d] i]. simpl in *. by rewrite insert_id.
Qed.

Lemma put_back_listed_record_witness :
  handle (PUT_tasks 1 (mkBody (Some "") (Some false) None))
         (run [POST_tasks (json_body "")] ∅).2
  = (unprocessable, (run [POST_tasks (json_body "")] ∅).2).
Proof.
  apply (put_back_listed_record (run [POST_tasks (json_body "")] ∅).2
           (mkTaskRead (mkTaskBase "" false) 1)).
  vm_compute. apply list_elem_of_here.
Defined.

(** ** Counting the listing *)

Lemma length_select_Task (db : table) : length (select_Task db) = size db.
Proof.
  unfold select_Task, rows. rewrite length_fmap, merge_sort_Permutation.
  apply length_map_to_list.
Qed.

Lemma assigned_ids_cons x log :
  length (assigned_ids (x :: log))
  = (length (assigned_ids [x]) + length (assigned_ids log))%nat.
Proof. unfold assigned_ids. simpl. by destruct (match x.1 with POST_tasks _ => _ | _ => _ end). Qed.

Lemma deleted_ids_cons x log :
  length (deleted_ids (x :: log))
  = (length (deleted_ids [x]) + length (deleted_ids log))%nat.
Proof. unfold deleted_ids. simpl. by destruct (match x.1 with DELETE_tasks _ => _ | _ => _ end). Qed.

(** One request: a successful creation adds a row, a successful deletion
    removes one, nothing else changes the number of rows. *)
Lemma handle_size req (db : table) :
  (size (handle req db).2 + length (deleted_ids [(req, (handle req db).1)])
   = size db + length (assigned_ids [(req, (handle req db).1)]))%nat.
Proof.
  destruct req as [b| |j b|j|j|j]; simpl.
  - destruct (construct_Task b) as [task|]; [|done]. unfold create_task.
    destruct (first _); [done|].
    destruct (insert_row task db) as [e|[i db']] eqn:E.
    { by apply insert_row_error in E as [-> | ->]. }
    apply insert_row_spec in E as [Hi ->]. simpl.
    rewrite map_size_insert_None by done. unfold assigned_ids. simpl. lia.
  - by destruct (forallb validate_TaskRead (select_Task db)).
  - destruct (validate_TaskBase b) as [p|]; [|done].
    destruct (get_overflows j db); [done|].
    unfold update_task, session_get. destruct (db !! j) eqn:E; [|done]. simpl.
    by rewrite map_size_insert_Some by eauto.
  - destruct (get_overflows j db); [done|].
    unfold delete_task, session_get. destruct (db !! j) as [row|] eqn:E; [|done].
    simpl. rewrite <- (insert_delete_id db j row E) at 2.
    rewrite map_size_insert_None by apply lookup_delete_eq.
    unfold deleted_ids. simpl. lia.
  - destruct (get_overflows j db); [done|].
    unfold mark_task_done, session_get. destruct (db !! j) eqn:E; [|done]. simpl.
    by rewrite map_size_insert_Some by eauto.
  - destruct (get_overflows j db); [done|].
    unfold toggle_task, session_get. destruct (db !! j) eqn:E; [|done]. simpl.
    by rewrite map_size_insert_Some by eauto.
Qed.

Lemma run_size reqs (db : table) :
  (size (run reqs db).2 + length (deleted_ids (exchanges reqs db))
   = size db + length (assigned_ids (exchanges reqs db)))%nat.
Proof.
  revert db. induction reqs as [|req reqs IH]; intros db; [done|].
  rewrite exchanges_cons, run_cons, assigned_ids_cons, deleted_ids_cons. cbn [snd].
  pose proof (IH (handle req db).2). pose proof (handle_size req db). lia.
Qed.

(** X12: after any sequence of requests from the empty table, the number
    of listed tasks is the number of creations that succeeded minus the
    number of deletions that succeeded: failed requests, updates,
    mark-done and toggle neither add nor remove a task. *)
Theorem listing_length (reqs : list request) :
  (length (select_Task (run reqs ∅).2) + length (deleted_ids (exchanges reqs ∅))
   = length (assigned_ids (exchanges reqs ∅)))%nat.
Proof.
  rewrite length_select_Task. pose proof (run_size reqs ∅) as H.
  by rewrite map_size_empty in H.
Qed.

(** ** Requests on different ids *)

(** The response to a request with an id in its path, and the row it
    leaves under that id, depend on the table only through that row. *)
Lemma handle_reads_target req i (db1 db2 : table) :
  target req = Some i → db1 !! i = db2 !! i →
  (handle req db1).1 = (handle req db2).1
  ∧ (handle req db1).2 !! i = (handle req db2).2 !! i.
Proof.
  intros Ht Heq.
  assert (Ho : get_overflows i db1 = get_overflows i db2)
    by (unfold get_overflows; by rewrite Heq).
  destruct req as [b| |j b|j|j|j]; try done;
    injection Ht as ->; simpl.
  - destruct (validate_TaskBase b) as [p|]; [|simpl; split; [reflexivity|exact Heq]].
    rewrite Ho. destruct (get_overflows i db2); [done|].
    unfold update_task, session_get. rewrite Heq.
    destruct (db2 !! i) eqn:E; simpl; [|split; [done|congruence]].
    by rewrite !lookup_insert_eq.
  - rewrite Ho. destruct (get_overflows i db2); [done|].
    unfold delete_task, session_get. rewrite Heq.
    destruct (db2 !! i) eqn:E; simpl; [|split; [done|congruence]].
    by rewrite !lookup_delete_eq.
  - rewrite Ho. destruct (get_overflows i db2); [done|].
    unfold mark_task_done, session_get. rewrite Heq.
    destruct (db2 !! i) eqn:E; simpl; [|split; [done|congruence]].
    by rewrite !lookup_insert_eq.
  - rewrite Ho. destruct (get_overflows i db2); [done|].
    unfold toggle_task, session_get. rewrite Heq.
    destruct (db2 !! i) eqn:E; simpl; [|split; [done|congruence]].
    by rewrite !lookup_insert_eq.
Qed.

Lemma handle_frame req i (db : table) k :
  target req = Some i → k ≠ i → (handle req db).2 !! k = db !! k.
Proof.
  intros Ht Hk. rewrite handle_table. destruct req as [b| |j b|j|j|j]; try done;
    injection Ht as ->.
  - destruct (validate_TaskBase b) as [p|]; [|done].
    unfold update_task, session_get. destruct (db !! i); simpl; [|done].
    by rewrite lookup_insert_ne.
  - unfold delete_task, session_get. destruct (db !! i); simpl; [|done].
    by rewrite lookup_delete_ne.
  - unfold mark_task_done, session_get. destruct (db !! i); simpl; [|done].
    by rewrite lookup_insert_ne.
  - unfold toggle_task, session_get. destruct (db !! i); simpl; [|done].
    by rewrite lookup_insert_ne.
Qed.

(** X13: two requests that carry different ids in their paths (update,
    delete, mark-done or toggle, in any combination) do not interfere:
    each gets the response it would get if the other had not been served,
    and the table at the end is the same in either order. *)
Theorem requests_on_distinct_ids_commute (req1 req2 : request) (i j : Z) (db : table) :
  target req1 = Some i → target req2 = Some j → i ≠ j →
  (handle req1 (handle req2 db).2).1 = (handle req1 db).1
  ∧ (handle req2 (handle req1 db).2).1 = (handle req2 db).1
  ∧ (handle req1 (handle req2 db).2).2 = (handle req2 (handle req1 db).2).2.
Proof.
  intros H1 H2 Hij.
  assert (E1 : (handle req2 db).2 !! i = db !! i) by by eapply handle_frame.
  assert (E2 : (handle req1 db).2 !! j = db !! j) by by eapply handle_frame.
  destruct (handle_reads_target req1 i _ _ H1 E1) as [R1 T1].
  destruct (handle_reads_target req2 j _ _ H2 E2) as [R2 T2].
  split_and!; [done..|]. apply map_eq. intros k.
  destruct (decide (k = i)) as [->|Hi]; [|destruct (decide (k = j)) as [->|Hj]].
  - rewrite T1. symmetry. by eapply handle_frame.
  - rewrite T2. by eapply handle_frame.
  - rewrite (handle_frame req1 i (handle req2 db).2 k), (handle_frame req2 j db k),
      (handle_frame req2 j (handle req1 db).2 k), (handle_frame req1 i db k) by done.
    done.
Qed.

Lemma requests_on_distinct_ids_commute_witness :
  (handle (DELETE_tasks 1) (handle (PATCH_tasks_toggle 2) (<[2 := mkTaskBase "b" false]> db_a)).2).2
  = (handle (PATCH_tasks_toggle 2) (handle (DELETE_tasks 1) (<[2 := mkTaskBase "b" false]> db_a)).2).2.
Proof.
  apply (requests_on_distinct_ids_commute (DELETE_tasks 1) (PATCH_tasks_toggle 2) 1 2);
    [reflexivity|reflexivity|lia].
Defined.

(** ** Ids chosen by the storage *)

Lemma max_rowid_attained (db : table) m :
  max_rowid db = Some m → is_Some (db !! m).
Proof.
  unfold max_rowid. intros Hm.
  assert (Hin : m ∈ (rows db).*1).
  { revert m Hm. generalize ((rows db).*1). intros l.
    induction l as [|a l IH]; intros m Hm; [done|]. simpl in Hm.
    destruct (foldr _ None l) as [m'|] eqn:E.
    - injection Hm as <-. destruct (Z.max_spec a m') as [[_ ->]|[_ ->]].
      + right. by apply IH.
      + left.
    - injection Hm as <-. left. }
  apply list_elem_of_fmap in Hin as ([k row] & -> & Hin).
  exists row. by apply elem_of_rows.
Qed.

Lemma next_rowid_within (n : nat) (db : table) :
  ids_within n db → 1 ≤ next_rowid db ≤ Z.of_nat (S n).
Proof.
  intros Hw. unfold next_rowid. destruct (max_rowid db) as [m|] eqn:E; [|lia].
  apply max_rowid_attained in E as [row Hrow]. specialize (Hw m row Hrow). lia.
Qed.

Lemma ids_within_insert (n n' : nat) (db : table) i (x : TaskBase) :
  ids_within n db → (n ≤ n')%nat → 1 ≤ i ≤ Z.of_nat n' →
  ids_within n' (<[i := x]> db).
Proof.
  intros Hw Hn Hi k row Hk. destruct (decide (k = i)) as [->|Hne]; [done|].
  rewrite lookup_insert_ne in Hk by done. specialize (Hw k row Hk). lia.
Qed.

Lemma handle_ids_within (n : nat) req (db : table) :
  ids_within n db → no_client_id req = true →
  ids_within (n + length (assigned_ids [(req, (handle req db).1)])) (handle req db).2.
Proof.
  intros Hw Hreq.
  assert (Hw0 : ∀ k : nat, ids_within (n + k) db).
  { intros k i row Hi. specialize (Hw i row Hi). lia. }
  destruct req as [b| |j b|j|j|j]; simpl.
  - unfold construct_Task. destruct (body_title b) as [t|]; simpl; [|apply Hw0].
    unfold create_task. destruct (first _); [apply Hw0|].
    unfold insert_row. simpl. simpl in Hreq. apply bool_decide_eq_true_1 in Hreq.
    rewrite Hreq. simpl. pose proof (next_rowid_within n db Hw).
    apply (ids_within_insert n); [done| |]; unfold assigned_ids; simpl; lia.
  - destruct (forallb validate_TaskRead (select_Task db)); apply Hw0.
  - destruct (validate_TaskBase b) as [p|]; [|apply Hw0].
    destruct (get_overflows j db); [apply Hw0|].
    unfold update_task, session_get. destruct (db !! j) as [row|] eqn:E; [|apply Hw0].
    simpl. pose proof (Hw j row E) as Hj.
    apply (ids_within_insert n); [done| |]; unfold assigned_ids; simpl; lia.
  - destruct (get_overflows j db); [apply Hw0|].
    unfold delete_task, session_get. destruct (db !! j) as [row|] eqn:E; [|apply Hw0].
    simpl. intros i x Hi. apply lookup_delete_Some in Hi as [_ Hi].
    by eapply Hw0.
  - destruct (get_overflows j db); [apply Hw0|].
    unfold mark_task_done, session_get. destruct (db !! j) as [row|] eqn:E; [|apply Hw0].
    simpl. pose proof (Hw j row E) as Hj.
    apply (ids_within_insert n); [done| |]; unfold assigned_ids; simpl; lia.
  - destruct (get_overflows j db); [apply Hw0|].
    unfold toggle_task, session_get. destruct (db !! j) as [row|] eqn:E; [|apply Hw0].
    simpl. pose proof (Hw j row E) as Hj.
    apply (ids_within_insert n); [done| |]; unfold assigned_ids; simpl; lia.
Qed.

Lemma run_ids_within (n : nat) reqs (db : table) :
  ids_within n db → forallb no_client_id reqs = true →
  ids_within (n + length (assigned_ids (exchanges reqs db))) (run reqs db).2.
Proof.
  revert n db. induction reqs as [|req reqs IH]; intros n db Hw Hreqs.
  - simpl. intros i row Hi. specialize (Hw i row Hi). lia.
  - simpl in Hreqs. apply andb_prop in Hreqs as [Hreq Hreqs].
    rewrite exchanges_cons, run_cons, assigned_ids_cons. cbn [snd].
    rewrite Nat.add_assoc. apply IH; [|done]. by apply handle_ids_within.
Qed.

(** X14: as long as no creation body carries an id, the ids are small
    positive integers: after any sequence of such requests from the empty
    table, every stored id lies between 1 and the number of creations that
    have succeeded. *)
Theorem stored_ids_bounded (reqs : list request) i row :
  forallb no_client_id reqs = true →
  (run reqs ∅).2 !! i = Some row →
  1 ≤ i ≤ Z.of_nat (length (assigned_ids (exchanges reqs ∅))).
Proof.
  intros Hreqs Hi.
  apply (run_ids_within 0 reqs ∅) with (row := row); [|done..].
  intros j x Hj. by rewrite lookup_empty in Hj.
Qed.

Lemma stored_ids_bounded_witness :
  1 ≤ 2 ≤ Z.of_nat (length (assigned_ids (exchanges
      [POST_tasks (json_body "a"); POST_tasks (json_body "b"); DELETE_tasks 1] ∅))).
Proof.
  apply (stored_ids_bounded
           [POST_tasks (json_body "a"); POST_tasks (json_body "b"); DELETE_tasks 1]
           2 (mkTaskBase "b" false)); reflexivity.
Defined.

(** ** Responses and the listing *)

(** X15: the record in a 200 response is what the table holds afterwards:
    whenever a creation, update, mark-done or toggle is answered 200 with
    a record, the listing that follows contains that record, and no other
    record with the same id. *)
Theorem response_record_is_listed (req : request) (db : table) (r : TaskRead) :
  (handle req db).1 = mkResponse 200 (task_json r) →
  r ∈ select_Task (handle req db).2
  ∧ ∀ r', r' ∈ select_Task (handle req db).2 →
      TaskRead_id r' = TaskRead_id r → r' = r.
Proof.
  intros Hresp.
  assert (Hrow : (handle req db).2 !! TaskRead_id r = Some (TaskRead_base r)).
  { destruct req as [b| |j b|j|j|j]; simpl in *.
    - destruct (construct_Task b) as [task|]; [|done]. unfold create_task in *.
      destruct (first _); [done|].
      destruct (insert_row task db) as [e|[i db']] eqn:E.
      { by apply insert_row_error in E as [-> | ->]. }
      apply insert_row_spec in E as [_ ->]. simpl in *.
      injection Hresp as <-. simpl. by rewrite lookup_insert_eq.
    - by destruct (forallb validate_TaskRead (select_Task db)).
    - destruct (validate_TaskBase b) as [p|]; [|done].
      destruct (get_overflows j db); [done|].
      unfold update_task, session_get in *. destruct (db !! j); [|done].
      simpl in *. destruct (validate_TaskRead _); [|done].
      injection Hresp as <-. simpl. by rewrite lookup_insert_eq.
    - destruct (get_overflows j db); [done|].
      unfold delete_task, session_get in *. by destruct (db !! j).
    - destruct (get_overflows j db); [done|].
      unfold mark_task_done, session_get in *. destruct (db !! j); [|done].
      simpl in *. destruct (validate_TaskRead _); [|done].
      injection Hresp as <-. simpl. by rewrite lookup_insert_eq.
    - destruct (get_overflows j db); [done|].
      unfold toggle_task, session_get in *. destruct (db !! j); [|done].
      simpl in *. destruct (validate_TaskRead _); [|done].
      injection Hresp as <-. simpl. by rewrite lookup_insert_eq. }
  split; [by apply elem_of_select_Task|].
  intros r' Hr' Hid. apply elem_of_select_Task in Hr'. rewrite Hid, Hrow in Hr'.
  destruct r, r'. simpl in *. congruence.
Qed.

Lemma response_record_is_listed_witness :
  mkTaskRead (mkTaskBase "a" true) 1 ∈ select_Task (handle (PATCH_tasks_done 1) db_a).2.
Proof.
  apply (response_record_is_listed (PATCH_tasks_done 1) db_a
           (mkTaskRead (mkTaskBase "a" true) 1)).
  reflexivity.
Defined.

(** ** Histories of valid creations, and rows with an invalid title *)

(** X16: when every creation body of the history that has a title has one
    of 1 to 100 characters, then after the history, from the empty table,
    the listing route answers 200 with the list that [read_tasks] returns,
    and a record is in that list exactly when the history says that its
    id was created and not deleted since and that the record is the one
    written by the last successful create, update, mark-done or toggle on
    that id; no two listed records have the same id. *)
Theorem read_tasks_lists_history (reqs : list request) :
  forallb valid_creation reqs = true →
  read_tasks (run reqs ∅).2 = (Return (select_Task (run reqs ∅).2), (run reqs ∅).2)
  ∧ handle GET_tasks (run reqs ∅).2
    = (mkResponse 200 (tasks_json (select_Task (run reqs ∅).2)), (run reqs ∅).2)
  ∧ (∀ r, r ∈ select_Task (run reqs ∅).2 ↔ spec_listed (exchanges reqs ∅) r)
  ∧ NoDup (TaskRead_id <$> select_Task (run reqs ∅).2).
Proof.
  intros Hreqs.
  assert (Hempty : titles_valid (∅ : table))
    by (intros j x Hj; by rewrite lookup_empty in Hj).
  split_and!; [done| | |].
  - simpl. rewrite select_Task_valid; [done|]. by apply run_titles_valid.
  - intros r. rewrite elem_of_select_Task.
    pose proof (run_agrees reqs ∅ (λ _, false) (λ _, None) Hreqs Hempty) as H.
    specialize (H (λ i, lookup_empty i) (TaskRead_id r)). simpl in H.
    unfold spec_listed, alive, last_values. split.
    + intros Hr. destruct (foldl (step_alive _) _ _); [|congruence].
      destruct H as (r' & Hv & Hid & Hrow). split; [done|].
      rewrite Hv. f_equal. destruct r, r'; simpl in *. congruence.
    + intros [Ha Hv]. rewrite Ha in H. destruct H as (r' & Hv' & _ & Hrow).
      congruence.
  - unfold select_Task. rewrite <- list_fmap_compose.
    apply (NoDup_rows_ids (run reqs ∅).2).
Qed.

Lemma read_tasks_lists_history_witness :
  handle GET_tasks (run [POST_tasks (json_body "a"); PATCH_tasks_toggle 1] ∅).2
  = (mkResponse 200 (tasks_json
       (select_Task (run [POST_tasks (json_body "a"); PATCH_tasks_toggle 1] ∅).2)),
     (run [POST_tasks (json_body "a"); PATCH_tasks_toggle 1] ∅).2).
Proof.
  apply (read_tasks_lists_history [POST_tasks (json_body "a"); PATCH_tasks_toggle 1]).
  reflexivity.
Defined.

(** X17: mark-done and toggle commit before the response is validated: on
    a task whose stored title has not 1 to 100 characters, each of them
    changes the row as on any other task, and is then answered 500. *)
Theorem patch_commits_before_response_fails (db : table) (task_id : Z) row :
  db !! task_id = Some row → ¬ (1 ≤ String.length (title row) ≤ 100)%nat →
  handle (PATCH_tasks_done task_id) db
  = (mkResponse 500 internal_server_error,
     <[task_id := mkTaskBase (title row) true]> db)
  ∧ handle (PATCH_tasks_toggle task_id) db
    = (mkResponse 500 internal_server_error,
       <[task_id := mkTaskBase (title row) (negb (done row))]> db).
Proof.
  intros Hrow Hlen. simpl. rewrite (get_overflows_row db task_id row Hrow).
  unfold mark_task_done, toggle_task, session_get. rewrite Hrow. simpl.
  unfold validate_TaskRead. simpl. by rewrite bool_decide_eq_false_2.
Qed.

Lemma patch_commits_before_response_fails_witness :
  handle (PATCH_tasks_toggle 1) {[ 1 := mkTaskBase "" false ]}
  = (mkResponse 500 internal_server_error,
     <[1 := mkTaskBase "" true]> {[ 1 := mkTaskBase "" false ]}).
Proof.
  apply (patch_commits_before_response_fails {[ 1 := mkTaskBase "" false ]} 1
           (mkTaskBase "" false)); [reflexivity|simpl; lia].
Defined.
